(** * Exoplanets: Kalman filtering of 1D star photometry (main.py)

    A shallow embedding of [DataStream.kalman_filter],
    [DataStream.jd_to_datetime] and the loop of [DataStream.load_data],
    with the properties of the filter and of the calendar conversion.

    Python floats are IEEE 754 binary64 values.  They are modelled by
    Rocq's primitive floats: the same format, the same rounding (to
    nearest, ties to even), one NaN.  Python integers are [Z].  An
    exception is a value of the error monad [result]; a call that raises
    aborts the run it is part of.  Python 3 is assumed: [1 / self.C] is a
    true division and [round] rounds ties to even.

    The filter is written once, over the interface [PyFloat] of the
    arithmetic it uses, and instantiated twice:
    - at binary64 ([Binary64]), which is what the interpreter runs;
    - at the reals extended with a not-a-number ([Exact]), the same
      recursion with no rounding and no overflow.

    Statements about all noise parameters are proved at the second
    instance; statements about the program as shipped ([FILTER_R = 0.002],
    [FILTER_Q = 0.1]) and about concrete inputs are proved at the first.
    The calendar conversion is modelled in binary64 only. *)

From Stdlib Require Import ZArith List Bool Lia Floats Reals RList Lra Psatz.
From Stdlib Require String Ascii.
Import ListNotations.
Import String.StringSyntax.
Delimit Scope string_scope with string.
#[local] Set Warnings "-inexact-float".

(** ** Exceptions *)

(** The exceptions the modelled code can raise. *)
Inductive exn : Set :=
| ZeroDivisionError
| ValueError
| OverflowError
| IndexError.

Inductive result (X : Type) : Type :=
| Ok (v : X)
| Raise (e : exn).
Arguments Ok {X} v.
Arguments Raise {X} e.

Definition bind {X Y : Type} (c : result X) (k : X -> result Y) : result Y :=
  match c with
  | Ok v => k v
  | Raise e => Raise e
  end.

Declare Scope py_scope.
Delimit Scope py_scope with py.
Notation "x <- c ;; k" := (bind c (fun x => k))
  (at level 61, c at next level, right associativity) : py_scope.
Notation "' p <- c ;; k" := (bind c (fun p => k))
  (at level 61, p pattern, c at next level, right associativity) : py_scope.
Open Scope py_scope.

(** ** The arithmetic the filter uses *)

(** [of_int] is the conversion Python applies to an [int] operand of a
    mixed [int]/[float] operation; [truediv] is [/], which raises
    [ZeroDivisionError] on a zero divisor; [isnan] is [math.isnan]. *)
Class PyFloat (T : Type) : Type := {
  nan : T;
  of_int : Z -> T;
  add : T -> T -> T;
  sub : T -> T -> T;
  mul : T -> T -> T;
  truediv : T -> T -> result T;
  isnan : T -> bool
}.

(** ** binary64 *)

Module Binary64.

(** [float(n)] for a Python int: the nearest binary64 value, ties to even. *)
Definition of_Z (n : Z) : float :=
  SF2Prim (binary_normalize prec emax n 0 false).

(** [a / b] on floats. *)
Definition truediv (a b : float) : result float :=
  if PrimFloat.eqb b 0 then Raise ZeroDivisionError else Ok (a / b)%float.

(** [math.copysign(a, b)] for [b] not a NaN. *)
Definition copysign (a b : float) : float :=
  if get_sign b then (- abs a)%float else abs a.

(** [math.trunc(f)] and [int(f)]: the integer part, towards zero. *)
Definition trunc (f : float) : result Z :=
  match Prim2SF f with
  | S754_nan => Raise ValueError
  | S754_infinity _ => Raise OverflowError
  | S754_zero _ => Ok 0%Z
  | S754_finite s m e => Ok (cond_Zopp s (Z.shiftl (Zpos m) e))
  end.

(** [round(f)] of Python 3: the nearest integer, ties to even. *)
Definition round (f : float) : result Z :=
  match Prim2SF f with
  | S754_nan => Raise ValueError
  | S754_infinity _ => Raise OverflowError
  | S754_zero _ => Ok 0%Z
  | S754_finite s m e =>
      match e with
      | Zneg p =>
          let q := Z.shiftr (Zpos m) (Zpos p) in
          let r := (Zpos m - Z.shiftl q (Zpos p))%Z in
          let half := Z.shiftl 1 (Zpos p - 1) in
          let up := match (r ?= half)%Z with
                    | Lt => false
                    | Eq => Z.odd q
                    | Gt => true
                    end in
          Ok (cond_Zopp s (if up then q + 1 else q)%Z)
      | _ => Ok (cond_Zopp s (Z.shiftl (Zpos m) e))
      end
  end.

(** [math.modf(f)]: the fractional and the integer part of [f], both
    floats carrying the sign of [f]. *)
Definition modf (f : float) : float * float :=
  if is_nan f then (f, f)
  else if is_infinity f then (copysign 0 f, f)
  else
    match trunc f with
    | Ok n => let ip := copysign (of_Z n) f in (copysign (f - ip) f, ip)
    | Raise _ => (f, f)
    end.

#[global] Instance float_PyFloat : PyFloat float := {
  nan := PrimFloat.nan;
  of_int := of_Z;
  add := PrimFloat.add;
  sub := PrimFloat.sub;
  mul := PrimFloat.mul;
  truediv := truediv;
  isnan := is_nan
}.

End Binary64.

(** ** Exact arithmetic *)

(** The reals with one more element for [float('nan')]: the same
    operations with no rounding and no overflow.  [None] is the
    not-a-number and is absorbing, as it is in binary64. *)
Module Exact.

Definition xreal : Type := option R.

Definition lift2 (f : R -> R -> R) (a b : xreal) : xreal :=
  match a, b with
  | Some u, Some v => Some (f u v)
  | _, _ => None
  end.

Definition truediv (a b : xreal) : result xreal :=
  match b with
  | Some d =>
      if Req_dec_T d 0 then Raise ZeroDivisionError
      else Ok (match a with Some n => Some (n / d)%R | None => None end)
  | None => Ok None
  end.

Definition isnan (a : xreal) : bool :=
  match a with
  | Some _ => false
  | None => true
  end.

#[global] Instance xreal_PyFloat : PyFloat xreal := {
  nan := None;
  of_int := fun n => Some (IZR n);
  add := lift2 Rplus;
  sub := lift2 Rminus;
  mul := lift2 Rmult;
  truediv := truediv;
  isnan := isnan
}.

End Exact.

(** ** The filter *)

(** The attributes of a [DataStream] object the filter reads and writes
    ([self.A] ... [self.cov]). *)
Record DataStream (T : Type) : Type := mkDataStream {
  self_A : Z;
  self_B : Z;
  self_C : Z;
  self_R : T;
  self_Q : T;
  self_x : T;
  self_cov : T
}.
Arguments mkDataStream {T}.
Arguments self_A {T}.
Arguments self_B {T}.
Arguments self_C {T}.
Arguments self_R {T}.
Arguments self_Q {T}.
Arguments self_x {T}.
Arguments self_cov {T}.

Section Filter.
Context {T : Type} `{PyFloat T}.

(** [DataStream.__init__], with the module constants [FILTER_R] and
    [FILTER_Q] as arguments; [cov] and [x] are the class attributes
    [float('nan')]. *)
Definition init (filter_r filter_q : T) : DataStream T :=
  {| self_A := 1; self_B := 0; self_C := 1;
     self_R := filter_r; self_Q := filter_q;
     self_x := nan; self_cov := nan |}.

Definition set_x_cov (self : DataStream T) (x cov : T) : DataStream T :=
  {| self_A := self_A self; self_B := self_B self; self_C := self_C self;
     self_R := self_R self; self_Q := self_Q self;
     self_x := x; self_cov := cov |}.

(** [DataStream.kalman_filter]: the object after the call and the
    returned value. *)
Definition kalman_filter (self : DataStream T) (measurement : T)
  : result (DataStream T * T) :=
  let u := 0%Z in
  if isnan (self_x self) then
    c1 <- truediv (of_int 1) (of_int (self_C self)) ;;
    let x := mul c1 measurement in
    c2 <- truediv (of_int 1) (of_int (self_C self)) ;;
    c3 <- truediv (of_int 1) (of_int (self_C self)) ;;
    let cov := mul (mul c2 (self_Q self)) c3 in
    Ok (set_x_cov self x cov, x)
  else
    let pred_x := add (mul (of_int (self_A self)) (self_x self))
                      (of_int (self_B self * u)) in
    let pred_cov := add (mul (mul (of_int (self_A self)) (self_cov self))
                             (of_int (self_A self)))
                        (self_R self) in
    r <- truediv (of_int 1)
           (add (mul (mul (of_int (self_C self)) pred_cov)
                     (of_int (self_C self)))
                (self_Q self)) ;;
    let k := mul (mul pred_cov (of_int (self_C self))) r in
    let x := add pred_x
                 (mul k (sub measurement
                             (mul (of_int (self_C self)) pred_x))) in
    let cov := sub pred_cov (mul (mul k (of_int (self_C self))) pred_cov) in
    Ok (set_x_cov self x cov, x).

(** The filter driven over a series, one measurement at a time, as the
    loop of [load_data] drives it: the final object and the returned
    values in order. *)
Fixpoint filter_run (self : DataStream T) (ms : list T)
  : result (DataStream T * list T) :=
  match ms with
  | [] => Ok (self, [])
  | m :: ms' =>
      '(self1, y) <- kalman_filter self m ;;
      '(self2, ys) <- filter_run self1 ms' ;;
      Ok (self2, y :: ys)
  end.

(** The objects after each call, in order. *)
Fixpoint filter_states (self : DataStream T) (ms : list T)
  : result (list (DataStream T)) :=
  match ms with
  | [] => Ok []
  | m :: ms' =>
      '(self1, _) <- kalman_filter self m ;;
      ss <- filter_states self1 ms' ;;
      Ok (self1 :: ss)
  end.

(** The covariance a call writes, as [kalman_filter] computes it: from
    [self.Q] and [self.C] on the first call (line 73), from the previous
    covariance, [self.A], [self.C], [self.R] and [self.Q] afterwards
    (lines 76, 79 and 83). *)
Definition cov_first (self : DataStream T) : result T :=
  c1 <- truediv (of_int 1) (of_int (self_C self)) ;;
  c2 <- truediv (of_int 1) (of_int (self_C self)) ;;
  c3 <- truediv (of_int 1) (of_int (self_C self)) ;;
  Ok (mul (mul c2 (self_Q self)) c3).

Definition cov_next (self : DataStream T) : result T :=
  let pred_cov := add (mul (mul (of_int (self_A self)) (self_cov self))
                           (of_int (self_A self)))
                      (self_R self) in
  r <- truediv (of_int 1)
         (add (mul (mul (of_int (self_C self)) pred_cov)
                   (of_int (self_C self)))
              (self_Q self)) ;;
  let k := mul (mul pred_cov (of_int (self_C self))) r in
  Ok (sub pred_cov (mul (mul k (of_int (self_C self))) pred_cov)).

(** The gain of a call after the first (lines 76 and 79), and the estimate
    that call stores for the gain [k] (lines 75 and 82). *)
Definition gain_next (self : DataStream T) : result T :=
  let pred_cov := add (mul (mul (of_int (self_A self)) (self_cov self))
                           (of_int (self_A self)))
                      (self_R self) in
  r <- truediv (of_int 1)
         (add (mul (mul (of_int (self_C self)) pred_cov)
                   (of_int (self_C self)))
              (self_Q self)) ;;
  Ok (mul (mul pred_cov (of_int (self_C self))) r).

Definition estimate_next (self : DataStream T) (k measurement : T) : T :=
  let pred_x := add (mul (of_int (self_A self)) (self_x self))
                    (of_int (self_B self * 0)) in
  add pred_x (mul k (sub measurement (mul (of_int (self_C self)) pred_x))).

Definition cov_written (self : DataStream T) : result T :=
  if isnan (self_x self) then cov_first self else cov_next self.

(** The covariance after call number [n + 1] on [self] when no call but
    the first takes the first-call branch: line 73 once, then lines 76-83
    [n] times. *)
Fixpoint cov_seq (self : DataStream T) (n : nat) : result T :=
  match n with
  | O => cov_first self
  | S n' =>
      c <- cov_seq self n' ;;
      cov_next (set_x_cov self (self_x self) c)
  end.

(** Two objects with the same configuration. *)
Definition same_config (s1 s2 : DataStream T) : Prop :=
  self_A s1 = self_A s2 /\ self_B s1 = self_B s2 /\ self_C s1 = self_C s2 /\
  self_R s1 = self_R s2 /\ self_Q s1 = self_Q s2.

End Filter.

(** The module constants. *)
Definition FILTER_R : float := 0.002%float.
Definition FILTER_Q : float := 0.1%float.
Definition TIME_CRT : float := 0.000%float.

(** ** The calendar conversion *)

(** [datetime.datetime] of the standard library, as far as the program
    uses it: seven integer fields, checked by the constructor. *)
Record datetime : Set := mkDatetime {
  year : Z;
  month : Z;
  day : Z;
  hour : Z;
  minute : Z;
  second : Z;
  microsecond : Z
}.

Definition is_leap (y : Z) : bool :=
  ((y mod 4 =? 0) && (negb (y mod 100 =? 0) || (y mod 400 =? 0)))%Z.

Definition days_in_month (y m : Z) : Z :=
  if (m =? 2)%Z then (if is_leap y then 29 else 28)%Z
  else if ((m =? 4) || (m =? 6) || (m =? 9) || (m =? 11))%Z then 30%Z
  else 31%Z.

Definition between (lo v hi : Z) : bool := ((lo <=? v) && (v <=? hi))%Z.

(** The constructor [datetime.datetime(year, month, day, hour, minute,
    second, microsecond)]: [ValueError] when a field is out of range. *)
Definition datetime_new (y mo d h mi s us : Z) : result datetime :=
  if between 1 y 9999 && between 1 mo 12 && between 1 d (days_in_month y mo)
     && between 0 h 23 && between 0 mi 59 && between 0 s 59
     && between 0 us 999999
  then Ok (mkDatetime y mo d h mi s us)
  else Raise ValueError.

Module Calendar.
Import Binary64.
#[local] Open Scope float_scope.

(** The branch of lines 96-100: the Gregorian correction applies to day
    numbers above 2299160. *)
Definition correction (I : Z) : result Z :=
  A <- trunc ((of_Z I - 1867216.25) / 36524.25) ;;
  if (I >? 2299160)%Z then
    A4 <- trunc (of_Z A / 4) ;;
    Ok (I + 1 + A - A4)%Z
  else Ok I.

(** Lines 93-127 of [DataStream.jd_to_datetime]: the seven arguments
    passed to the [datetime] constructor. *)
Definition jd_to_fields (jd : float) : result (Z * Z * Z * Z * Z * Z * Z) :=
  let jd := jd + 0.5 in
  let '(F, If) := modf jd in
  I <- trunc If ;;
  B <- correction I ;;
  let C := (B + 1524)%Z in
  D <- trunc ((of_Z C - 122.1) / 365.25) ;;
  E <- trunc (365.25 * of_Z D) ;;
  G <- trunc (of_Z (C - E) / 30.6001) ;;
  T <- trunc (30.6001 * of_Z G) ;;
  let day := of_Z (C - E) + F - of_Z T in
  let month := if of_Z G <? 13.5 then (G - 1)%Z else (G - 13)%Z in
  let year := if 2.5 <? of_Z month then (D - 4716)%Z else (D - 4715)%Z in
  let '(frac_days, day) := modf day in
  day <- trunc day ;;
  let hours := frac_days * 24 in
  let '(hours, hour) := modf hours in
  let mins := hours * 60 in
  let '(mins, min) := modf mins in
  let secs := mins * 60 in
  let '(secs, sec) := modf secs in
  micro <- round (secs * 1e6) ;;
  hour <- trunc hour ;;
  min <- trunc min ;;
  sec <- trunc sec ;;
  Ok (year, month, day, hour, min, sec, micro).

(** [DataStream.jd_to_datetime]. *)
Definition jd_to_datetime (jd : float) : result datetime :=
  '(year, month, day, hour, min, sec, micro) <- jd_to_fields jd ;;
  datetime_new year month day hour min sec micro.

End Calendar.

(** ** The loop of [load_data] *)

(** A parsed line: [temp['ts']], [temp['mag']], [temp['dif']]. *)
Record raw : Set := mkRaw { ts : float; mag : float; dif : float }.

(** A record of [parsed_data]. *)
Record record : Set := mkRecord {
  r_ts : float;
  r_mag : float;
  r_dif : float;
  f_mag : float;
  dt : datetime;
  dt_cor : datetime
}.

(** The body of the [for] loop over the data lines, after the split of a
    line into its three numbers. *)
Fixpoint load_lines (self : DataStream float) (lines : list raw)
  : result (DataStream float * list record) :=
  match lines with
  | [] => Ok (self, [])
  | l :: lines' =>
      '(self1, fm) <- kalman_filter self (mag l) ;;
      d <- Calendar.jd_to_datetime (ts l) ;;
      dc <- Calendar.jd_to_datetime (ts l - TIME_CRT)%float ;;
      '(self2, rest) <- load_lines self1 lines' ;;
      Ok (self2, mkRecord (ts l) (mag l) (dif l) fm d dc :: rest)
  end.

(** [DataStream.load_data] on the parsed lines of the file: the object
    after the call and its [data_stream].  [parsed_data[0]] is logged, which
    raises [IndexError] on an empty file. *)
Definition load_data (self : DataStream float) (lines : list raw)
  : result (DataStream float * list record) :=
  '(self1, parsed_data) <- load_lines self lines ;;
  match parsed_data with
  | [] => Raise IndexError
  | _ :: _ => Ok (self1, parsed_data)
  end.

(** ** Concrete inputs *)

(** The two records of the end-to-end scenario; the first is the line of
    the docstring of [DataStream]. *)
Definition scenario : list raw :=
  [ mkRaw 2458126.22243%float (-0.09398)%float 0.0029%float;
    mkRaw 2458126.23000%float (-0.09350)%float 0.0029%float ].















(** The values returned by a run and the covariances it leaves behind. *)
Definition estimates {T : Type} `{PyFloat T} (self : DataStream T)
           (ms : list T) : result (list T) :=
  '(_, ys) <- filter_run self ms ;; Ok ys.

Definition covariances {T : Type} `{PyFloat T} (self : DataStream T)
           (ms : list T) : result (list T) :=
  ss <- filter_states self ms ;; Ok (map self_cov ss).

(** The object the program builds: [DataStream(FILENAME)]. *)
Definition shipped : DataStream float := init FILTER_R FILTER_Q.

(** The smallest positive binary64 value, and a large finite one. *)
Definition tiny : float := 0x1p-1074%float.
Definition huge : float := 1.7e308%float.

(** The covariance after call [n + 1] on the shipped object is defined and
    not negative. *)
Definition cov_ok (n : nat) : bool :=
  match cov_seq shipped n with
  | Ok c => (0 <=? c)%float
  | Raise _ => false
  end.

(** ** The textbook recursion *)

(** What lines 75-83 compute in exact arithmetic with A = 1, B = 0, C = 1:
    the gain, the covariance update, and the run over a series from the
    estimate [e] and the covariance [c]. *)
Definition gain (r q c : R) : R := ((c + r) / (c + r + q))%R.

Definition cov_update (r q c : R) : R := ((c + r) * q / (c + r + q))%R.

Fixpoint exact_trace (r q e c : R) (ms : list R) : list (R * R) :=
  match ms with
  | [] => []
  | m :: ms' =>
      let e' := (e + gain r q c * (m - e))%R in
      let c' := cov_update r q c in
      (e', c') :: exact_trace r q e' c' ms'
  end.

(** The covariance after call [n + 1]. *)
Fixpoint cov_real (r q : R) (n : nat) : R :=
  match n with
  | O => q
  | S n' => cov_update r q (cov_real r q n')
  end.

(** The positive root of [c^2 + r c - r q]. *)
Definition cov_star (r q : R) : R := ((sqrt (r * r + 4 * r * q) - r) / 2)%R.

(** An initialised object in exact arithmetic. *)
Definition exact_obj (r q e c : R) : DataStream Exact.xreal :=
  mkDataStream 1 0 1 (Some r) (Some q) (Some e) (Some c).

Definition exact_objs (r q : R) (l : list (R * R)) : list (DataStream Exact.xreal) :=
  map (fun ec => exact_obj r q (fst ec) (snd ec)) l.

(** A binary64 value that is neither a NaN nor an infinity, on its
    specification. *)
Definition sf_finite (a : spec_float) : bool :=
  match a with
  | S754_zero _ | S754_finite _ _ _ => true
  | _ => false
  end.

(** The estimate [x] on a constant series of measurements [m]: [m] itself,
    or [+0.0] when [m] is a zero. *)
Definition constant_at (x m : float) : Prop :=
  x = m \/ ((exists s, Prim2SF m = S754_zero s) /\ x = 0%float).

(** The gain of call [n + 2] on the shipped object is finite. *)
Definition gain_ok (n : nat) : bool :=
  match cov_seq shipped n with
  | Ok c =>
      match gain_next (set_x_cov shipped PrimFloat.nan c) with
      | Ok k => sf_finite (Prim2SF k)
      | Raise _ => false
      end
  | Raise _ => false
  end.

(** The covariance does not increase from call [n + 1] to call [n + 2] on
    the shipped object. *)
Definition cov_step_ok (n : nat) : bool :=
  match cov_seq shipped n, cov_seq shipped (S n) with
  | Ok a, Ok b => (b <=? a)%float
  | _, _ => false
  end.

(** The covariance of the shipped object from call 130 on. *)
Definition cov_limit : float := 0.013177446878757829%float.

(** ** The lines of the data file *)

(** Python strings are modelled by [String.string]: sequences of code points
    below 256. *)

(** [c.isspace()], which is what [str.split()] splits on. *)
Definition isspace (c : Ascii.ascii) : bool :=
  let n := Ascii.N_of_ascii c in
  ((9 <=? n) && (n <=? 13) || (28 <=? n) && (n <=? 32)
   || (n =? 133) || (n =? 160))%N.

Definition flush (cur : String.string) : list String.string :=
  match cur with
  | String.EmptyString => []
  | String.String _ _ => [cur]
  end.

(** [split_from cur s]: the tokens of [s], the first one continuing the
    token [cur] read so far. *)
Fixpoint split_from (cur s : String.string) : list String.string :=
  match s with
  | String.EmptyString => flush cur
  | String.String c s' =>
      if isspace c then flush cur ++ split_from String.EmptyString s'
      else split_from (String.append cur (String.String c String.EmptyString)) s'
  end.

(** [line.split()]. *)
Definition split (line : String.string) : list String.string :=
  split_from String.EmptyString line.

(** [sub in s]. *)
Fixpoint contains (sub s : String.string) : bool :=
  String.prefix sub s ||
  match s with
  | String.EmptyString => false
  | String.String _ s' => contains sub s'
  end.

(** [l[i]] on a list. *)
Definition getitem {X : Type} (l : list X) (i : nat) : result X :=
  match nth_error l i with
  | Some v => Ok v
  | None => Raise IndexError
  end.

Section TextLoader.

(** The builtin [float] applied to a string: the parsed value, or
    [ValueError]. *)
Variable py_float : String.string -> result float.

(** Lines 54-55: the three numbers of a data line. *)
Definition parse_line (line : String.string) : result raw :=
  let line := split line in
  t0 <- getitem line 0 ;;
  ts <- py_float (String.substring 0 14 t0) ;;
  t1 <- getitem line 1 ;;
  mag <- py_float t1 ;;
  t2 <- getitem line 2 ;;
  dif <- py_float t2 ;;
  Ok (mkRaw ts mag dif).

(** The [for] loop of [load_data] over the lines of the file (lines
    50-59). *)
Fixpoint load_text_lines (self : DataStream float) (lines : list String.string)
  : result (DataStream float * list record) :=
  match lines with
  | [] => Ok (self, [])
  | line :: lines' =>
      if contains "JD"%string line then load_text_lines self lines'
      else
        temp <- parse_line line ;;
        '(self1, fm) <- kalman_filter self (mag temp) ;;
        d <- Calendar.jd_to_datetime (ts temp) ;;
        dc <- Calendar.jd_to_datetime (ts temp - TIME_CRT)%float ;;
        '(self2, rest) <- load_text_lines self1 lines' ;;
        Ok (self2, mkRecord (ts temp) (mag temp) (dif temp) fm d dc :: rest)
  end.

(** [DataStream.load_data] on the lines of the file. *)
Definition load_data_text (self : DataStream float) (lines : list String.string)
  : result (DataStream float * list record) :=
  '(self1, parsed_data) <- load_text_lines self lines ;;
  match parsed_data with
  | [] => Raise IndexError
  | _ :: _ => Ok (self1, parsed_data)
  end.

(** The data lines of a file, parsed; the first exception otherwise. *)
Fixpoint parse_lines (lines : list String.string) : result (list raw) :=
  match lines with
  | [] => Ok []
  | line :: lines' =>
      if contains "JD"%string line then parse_lines lines'
      else
        temp <- parse_line line ;;
        rest <- parse_lines lines' ;;
        Ok (temp :: rest)
  end.

(** A [DataStream] object: the attributes of the filter and
    [self.data_stream]. *)
Record App : Type := mkApp {
  app_self : DataStream float;
  data_stream : list record
}.

(** [DataStream(FILENAME)]. *)
Definition new_app : App := mkApp shipped [].

(** [DataStream.load_data] as a method: it stores [parsed_data]. *)
Definition app_load_data (app : App) (file : list String.string) : result App :=
  '(self1, parsed_data) <- load_data_text (app_self app) file ;;
  Ok (mkApp self1 parsed_data).

(** [DataStream.get_data], with the lines the file holds at the call: the
    object after the call and the returned list. *)
Definition get_data (app : App) (file : list String.string)
  : result (App * list record) :=
  match data_stream app with
  | _ :: _ => Ok (app, data_stream app)
  | [] =>
      app1 <- app_load_data app file ;;
      Ok (app1, data_stream app1)
  end.

End TextLoader.

(** ** Plotting *)

(** The values a record holds. *)
Inductive value : Set :=
| VFloat (f : float)
| VDatetime (d : datetime).

(** The outcome of [plot_graph]: what is handed to the plotting service,
    or [KeyError] with the missing key. *)
Inductive plotted (X : Type) : Type :=
| Plotted (v : X)
| KeyError (key : String.string).
Arguments Plotted {X} v.
Arguments KeyError {X} key.

(** [item[key]] on a record of [parsed_data]. *)
Definition record_getitem (item : record) (key : String.string) : plotted value :=
  if String.eqb key "ts"%string then Plotted (VFloat (r_ts item))
  else if String.eqb key "mag"%string then Plotted (VFloat (r_mag item))
  else if String.eqb key "dif"%string then Plotted (VFloat (r_dif item))
  else if String.eqb key "f_mag"%string then Plotted (VFloat (f_mag item))
  else if String.eqb key "dt"%string then Plotted (VDatetime (dt item))
  else if String.eqb key "dt_cor"%string then Plotted (VDatetime (dt_cor item))
  else KeyError key.

(** [Scatter(x=data_x, y=data_y, mode='markers')]. *)
Record Scatter : Set := mkScatter {
  scatter_x : list value;
  scatter_y : list value
}.

(** The inner loop of [plot_graph] (lines 156-159). *)
Fixpoint scatter_columns (data : list record) (time_stamp data_tag : String.string)
  : plotted (list value * list value) :=
  match data with
  | [] => Plotted ([], [])
  | item :: data' =>
      match record_getitem item time_stamp with
      | KeyError k => KeyError k
      | Plotted vx =>
          match record_getitem item data_tag with
          | KeyError k => KeyError k
          | Plotted vy =>
              match scatter_columns data' time_stamp data_tag with
              | KeyError k => KeyError k
              | Plotted (xs, ys) => Plotted (vx :: xs, vy :: ys)
              end
          end
      end
  end.

(** [VisualizeData(data).plot_graph(dataset)]: the diagrams of the figure
    passed to [plotly.plotly.plot]. *)
Fixpoint plot_graph (data : list record)
         (dataset : list (String.string * String.string))
  : plotted (list Scatter) :=
  match dataset with
  | [] => Plotted []
  | (time_stamp, data_tag) :: dataset' =>
      match scatter_columns data time_stamp data_tag with
      | KeyError k => KeyError k
      | Plotted (xs, ys) =>
          match plot_graph data dataset' with
          | KeyError k => KeyError k
          | Plotted diagrams => Plotted (mkScatter xs ys :: diagrams)
          end
      end
  end.

(** The program: lines 178-179, on the lines of [FILENAME]. *)
Definition main (py_float : String.string -> result float)
           (file : list String.string) : result (plotted (list Scatter)) :=
  '(_, data) <- get_data py_float new_app file ;;
  Ok (plot_graph data [("dt"%string, "mag"%string); ("dt_cor"%string, "f_mag"%string)]).

(** What [parse_line] reads of a line: the first 14 characters of the first
    token, and the second and third tokens. *)
Definition line_key (line : String.string) : list String.string :=
  match split line with
  | [] => []
  | t0 :: rest => String.substring 0 14 t0 :: firstn 2 rest
  end.

(** The keys of a record of [parsed_data]. *)
Definition record_keys : list String.string :=
  ["ts"; "mag"; "dif"; "f_mag"; "dt"; "dt_cor"]%string.

(** The lines [load_data] reads: those without ["JD"]. *)
Definition data_lines (lines : list String.string) : list String.string :=
  filter (fun line => negb (contains "JD"%string line)) lines.

(** The builtin [float] on the strings of decimal digits, for the examples
    below; the strings it rejects here are not all rejected by the
    builtin. *)
Fixpoint digits_value (acc : Z) (s : String.string) : option Z :=
  match s with
  | String.EmptyString => Some acc
  | String.String c s' =>
      let n := Ascii.N_of_ascii c in
      if ((48 <=? n) && (n <=? 57))%N
      then digits_value (10 * acc + Z.of_N (n - 48)) s'
      else None
  end.

Definition float_of_digits (s : String.string) : result float :=
  match s with
  | String.EmptyString => Raise ValueError
  | String.String _ _ =>
      match digits_value 0 s with
      | Some n => Ok (Binary64.of_Z n)
      | None => Raise ValueError
      end
  end.

(** A file of three lines: a header and two data lines. *)
Definition sample_file : list String.string :=
  ["HJD mag err"; "2458126 3 1"; "2458127 5 1"]%string.

(** The covariance after call [n + 1] on the shipped object lies between
    its limit and [FILTER_Q]. *)
Definition cov_range_ok (n : nat) : bool :=
  match cov_seq shipped n with
  | Ok c => ((cov_limit <=? c) && (c <=? FILTER_Q))%float
  | Raise _ => false
  end.

(** ** Calendar dates and day numbers *)

(** The Julian Day of the midnight that starts day number [I]: Julian Days
    change at noon, and line 95 computes [I = int(jd + 0.5)]. *)
Definition midnight_jd (I : Z) : float := (Binary64.of_Z I - 0.5)%float.

(** The number of days of the year before month [m], in a year that is
    leap or not. *)
Definition days_before_month (leap : bool) (m : Z) : Z :=
  (nth (Z.to_nat (m - 1)) [0; 31; 59; 90; 120; 151; 181; 212; 243; 273; 304; 334] 0
   + (if (2 <? m) && leap then 1 else 0))%Z.

(** The ordinal of a date of the proleptic Gregorian calendar, 1 for
    0001-01-01 ([date.toordinal] of the standard library). *)
Definition gregorian_ordinal (y m d : Z) : Z :=
  (let y1 := y - 1 in
   y1 * 365 + y1 / 4 - y1 / 100 + y1 / 400 + days_before_month (is_leap y) m + d)%Z.

(** The Julian calendar: every fourth year is leap. *)
Definition julian_leap (y : Z) : bool := (y mod 4 =? 0)%Z.

Definition julian_days_in_month (y m : Z) : Z :=
  if (m =? 2)%Z then (if julian_leap y then 29 else 28)%Z
  else if ((m =? 4) || (m =? 6) || (m =? 9) || (m =? 11))%Z then 30%Z
  else 31%Z.

(** The ordinal of a date of the Julian calendar, 1 for its 0001-01-01. *)
Definition julian_ordinal (y m d : Z) : Z :=
  (let y1 := y - 1 in
   y1 * 365 + y1 / 4 + days_before_month (julian_leap y) m + d)%Z.

(** The midnight of day number [I] converts to the Gregorian date of
    ordinal [I - 1721425], at 00:00:00. *)
Definition gregorian_ok (I : Z) : bool :=
  match Calendar.jd_to_datetime (midnight_jd I) with
  | Ok d =>
      ((gregorian_ordinal (year d) (month d) (day d) =? I - 1721425)
       && between 1 (month d) 12
       && between 1 (day d) (days_in_month (year d) (month d))
       && (hour d =? 0) && (minute d =? 0)
       && (second d =? 0) && (microsecond d =? 0))%Z
  | Raise _ => false
  end.

(** The fields computed for the midnight of day number [I] are the Julian
    date of ordinal [I - 1721423], at 00:00:00. *)
Definition julian_ok (I : Z) : bool :=
  match Calendar.jd_to_fields (midnight_jd I) with
  | Ok (y, m, d, h, mi, s, us) =>
      ((julian_ordinal y m d =? I - 1721423)
       && between 1 y 9999 && between 1 m 12
       && between 1 d (julian_days_in_month y m)
       && (h =? 0) && (mi =? 0) && (s =? 0) && (us =? 0))%Z
  | Raise _ => false
  end.

(** [f] holds on the [n] integers from [lo] on. *)
Fixpoint all_from (f : Z -> bool) (lo : Z) (n : nat) : bool :=
  match n with
  | O => true
  | S n' => f lo && all_from f (lo + 1) n'
  end.

(** * Properties *)

(** ** The error monad *)

Lemma bind_Ok {X Y : Type} (c : result X) (k : X -> result Y) (y : Y) :
  bind c k = Ok y -> exists v, c = Ok v /\ k v = Ok y.
Proof.
  destruct c as [v|e]; simpl; intros Hk; [exists v; split; trivial | discriminate].
Qed.

Ltac inv_bind H :=
  let v := fresh "v" in
  let Hc := fresh "Hc" in
  apply bind_Ok in H; destruct H as [v [Hc H]].

(** ** The helpers on concrete values *)

(** A decimal literal denotes the binary64 value nearest to it, as in
    Python: it is the correctly rounded quotient of two integers. *)
Example literal_30_6001 :
  (Binary64.of_Z 306001 / Binary64.of_Z 10000)%float = 30.6001%float.
Proof. vm_compute. reflexivity. Qed.

Example literal_122_1 :
  (Binary64.of_Z 1221 / Binary64.of_Z 10)%float = 122.1%float.
Proof. vm_compute. reflexivity. Qed.

Example modf_positive : Binary64.modf 2451545.5%float = (0.5, 2451545)%float.
Proof. vm_compute. reflexivity. Qed.

Example modf_negative : Binary64.modf (-3.25)%float = (-0.25, -3)%float.
Proof. vm_compute. reflexivity. Qed.

Example trunc_towards_zero :
  map Binary64.trunc [1.9; -1.9; 0.3; 1e22]%float
  = [Ok 1; Ok (-1); Ok 0; Ok 10000000000000000000000]%Z.
Proof. vm_compute. reflexivity. Qed.

Example trunc_raises :
  map Binary64.trunc [PrimFloat.nan; infinity]
  = [Raise ValueError; Raise OverflowError].
Proof. vm_compute. reflexivity. Qed.

Example round_ties_to_even :
  map Binary64.round [0.5; 1.5; 2.5; -0.5; -1.5; 2.4999; 999999.5]%float
  = [Ok 0; Ok 2; Ok 2; Ok 0; Ok (-2); Ok 2; Ok 1000000]%Z.
Proof. vm_compute. reflexivity. Qed.

Example truediv_by_zero :
  Binary64.truediv 1 0 = Raise ZeroDivisionError /\
  Binary64.truediv 1 (-0) = Raise ZeroDivisionError /\
  Binary64.truediv 1 tiny = Ok infinity.
Proof. repeat split; vm_compute; reflexivity. Qed.

Example datetime_new_checks :
  datetime_new 2018 2 29 0 0 0 0 = Raise ValueError /\
  datetime_new 2016 2 29 0 0 0 0 = Ok (mkDatetime 2016 2 29 0 0 0 0) /\
  datetime_new 2018 1 7 0 0 51 1000000 = Raise ValueError /\
  datetime_new 0 1 1 0 0 0 0 = Raise ValueError.
Proof. repeat split; vm_compute; reflexivity. Qed.

(** ** The filter, for any arithmetic *)

Section FilterFacts.
Context {T : Type} `{PyFloat T}.

(** A call returns the estimate it stores, writes only [x] and [cov], and
    the covariance it writes is [cov_written]. *)
Lemma kalman_filter_Ok (self self' : DataStream T) (m y : T) :
  kalman_filter self m = Ok (self', y) ->
  self_x self' = y /\ same_config self self' /\
  cov_written self = Ok (self_cov self').
Proof.
  unfold kalman_filter, cov_written, cov_first, cov_next, same_config.
  destruct (isnan (self_x self)).
  - destruct (truediv (of_int 1) (of_int (self_C self))) as [c|e]; simpl;
      intros Hk; [injection Hk as <- <- | discriminate].
    repeat split.
  - destruct (truediv (of_int 1) _) as [r|e]; simpl;
      intros Hk; [injection Hk as <- <- | discriminate].
    repeat split.
Qed.

Lemma same_config_trans (s1 s2 s3 : DataStream T) :
  same_config s1 s2 -> same_config s2 s3 -> same_config s1 s3.
Proof.
  unfold same_config. intros (?&?&?&?&?) (?&?&?&?&?).
  repeat split; etransitivity; eassumption.
Qed.

Lemma same_config_sym (s1 s2 : DataStream T) :
  same_config s1 s2 -> same_config s2 s1.
Proof. unfold same_config. intros (?&?&?&?&?). repeat split; congruence. Qed.

(** A run over a series restricts to a run over each of its prefixes. *)
Lemma filter_run_prefix (self self' : DataStream T) (ms ys : list T) (n : nat) :
  filter_run self ms = Ok (self', ys) ->
  exists selfn, filter_run self (firstn n ms) = Ok (selfn, firstn n ys).
Proof.
  revert self self' ys n.
  induction ms as [|m ms IH]; simpl; intros self self' ys n Hr.
  - injection Hr as <- <-. exists self. destruct n; reflexivity.
  - inv_bind Hr. destruct v as [s1 y]. inv_bind Hr. destruct v as [s2 ys'].
    injection Hr as <- <-.
    destruct n as [|n]; simpl.
    + exists self. reflexivity.
    + destruct (IH _ _ _ n Hc0) as (sn & Hn).
      exists sn. rewrite Hc. simpl. rewrite Hn. reflexivity.
Qed.

Lemma filter_run_length (self self' : DataStream T) (ms ys : list T) :
  filter_run self ms = Ok (self', ys) -> length ys = length ms.
Proof.
  revert self self' ys.
  induction ms as [|m ms IH]; simpl; intros self self' ys Hr.
  - injection Hr as <- <-. reflexivity.
  - inv_bind Hr. destruct v as [s1 y]. inv_bind Hr. destruct v as [s2 ys'].
    injection Hr as <- <-. simpl. f_equal. eauto.
Qed.

End FilterFacts.

Section Trajectory.
Context {T : Type} `{PyFloat T}.

Lemma cov_first_config (s1 s2 : DataStream T) :
  same_config s1 s2 -> cov_first s1 = cov_first s2.
Proof.
  intros (HA & HB & HC & HR & HQ). unfold cov_first.
  rewrite HC, HQ. reflexivity.
Qed.

Lemma cov_next_config (s1 s2 : DataStream T) :
  same_config s1 s2 -> self_cov s1 = self_cov s2 ->
  cov_next s1 = cov_next s2.
Proof.
  intros (HA & HB & HC & HR & HQ) Hcov. unfold cov_next.
  rewrite HA, HC, HR, HQ, Hcov. reflexivity.
Qed.

(** While the stored estimate is never a NaN after a call, the object
    after call [n + 1] carries the covariance [cov_seq self0 n]: here
    [self] is the object after [k] calls on [self0] and [c] is what
    [cov_seq] gives for it. *)
Lemma filter_states_cov_seq (self0 self : DataStream T) (k : nat)
      (ms : list T) (ss : list (DataStream T)) :
  same_config self0 self ->
  isnan (self_x self) = false ->
  cov_seq self0 k = Ok (self_cov self) ->
  filter_states self ms = Ok ss ->
  Forall (fun s => isnan (self_x s) = false) ss ->
  forall n s, nth_error ss n = Some s ->
              cov_seq self0 (S k + n) = Ok (self_cov s).
Proof.
  revert self k ss.
  induction ms as [|m ms IH]; cbn [filter_states];
    intros self k ss Hcfg Hx Hk Hrun Hall n s Hn.
  - injection Hrun as <-. destruct n; discriminate.
  - inv_bind Hrun. destruct v as [s1 y]. inv_bind Hrun. injection Hrun as <-.
    destruct (kalman_filter_Ok _ _ _ _ Hc) as (_ & Hcfg1 & Hcov).
    unfold cov_written in Hcov. rewrite Hx in Hcov.
    assert (Hk1 : cov_seq self0 (S k) = Ok (self_cov s1)).
    { simpl. rewrite Hk. simpl. rewrite <- Hcov.
      apply cov_next_config; [exact Hcfg | reflexivity]. }
    inversion Hall as [|? ? Hx1 Hall']; subst.
    destruct n as [|n]; simpl in Hn.
    + injection Hn as <-. rewrite Nat.add_0_r. exact Hk1.
    + replace (S k + S n)%nat with (S (S k) + n)%nat by lia.
      apply (IH s1 (S k) v); eauto using same_config_trans.
Qed.

(** The same from a fresh object. *)
Lemma fresh_states_cov_seq (self : DataStream T)
      (ms : list T) (ss : list (DataStream T)) :
  isnan (self_x self) = true ->
  filter_states self ms = Ok ss ->
  Forall (fun s => isnan (self_x s) = false) ss ->
  forall n s, nth_error ss n = Some s -> cov_seq self n = Ok (self_cov s).
Proof.
  intros Hnan Hrun Hall n s Hn.
  destruct ms as [|m ms]; simpl in Hrun.
  - injection Hrun as <-. destruct n; discriminate.
  - inv_bind Hrun. destruct v as [s1 y]. inv_bind Hrun. injection Hrun as <-.
    destruct (kalman_filter_Ok _ _ _ _ Hc) as (_ & Hcfg1 & Hcov).
    unfold cov_written in Hcov. rewrite Hnan in Hcov.
    inversion Hall as [|? ? Hx1 Hall']; subst.
    destruct n as [|n]; simpl in Hn.
    + injection Hn as <-. exact Hcov.
    + change (S n) with (1 + n)%nat.
      eapply (filter_states_cov_seq self s1 0); eauto.
Qed.

Lemma filter_states_length (self : DataStream T) (ms : list T)
      (ss : list (DataStream T)) :
  filter_states self ms = Ok ss -> length ss = length ms.
Proof.
  revert self ss. induction ms as [|m ms IH]; simpl; intros self ss Hrun.
  - injection Hrun as <-. reflexivity.
  - inv_bind Hrun. destruct v as [s1 y]. inv_bind Hrun. injection Hrun as <-.
    simpl. f_equal. eauto.
Qed.

End Trajectory.

Lemma nth_error_ext {X : Type} (l1 l2 : list X) :
  (forall n, nth_error l1 n = nth_error l2 n) -> l1 = l2.
Proof.
  revert l2. induction l1 as [|a l1 IH]; intros [|b l2] Hn.
  - reflexivity.
  - specialize (Hn 0%nat). discriminate.
  - specialize (Hn 0%nat). discriminate.
  - f_equal.
    + specialize (Hn 0%nat). simpl in Hn. congruence.
    + apply IH. intros n. exact (Hn (S n)).
Qed.

(** C9 (as amended): for two measurement series of the same length fed to
    two fresh filters with the same R and Q, if no call leaves a NaN in the
    stored estimate, the covariance after each call is the same in both
    runs; it is [cov_seq], a function of the call number and of the
    configuration only. *)
Theorem covariance_independent_of_measurements
        {T : Type} `{PyFloat T} (r q : T) (ms1 ms2 : list T)
        (ss1 ss2 : list (DataStream T)) :
  length ms1 = length ms2 ->
  isnan (nan : T) = true ->
  filter_states (init r q) ms1 = Ok ss1 ->
  filter_states (init r q) ms2 = Ok ss2 ->
  Forall (fun s => isnan (self_x s) = false) ss1 ->
  Forall (fun s => isnan (self_x s) = false) ss2 ->
  map self_cov ss1 = map self_cov ss2 /\
  forall n s, nth_error ss1 n = Some s ->
              cov_seq (init r q) n = Ok (self_cov s).
Proof.
  intros Hlen Hnan H1 H2 Hx1 Hx2.
  assert (Hs1 := fresh_states_cov_seq (init r q) ms1 ss1 Hnan H1 Hx1).
  assert (Hs2 := fresh_states_cov_seq (init r q) ms2 ss2 Hnan H2 Hx2).
  split; [|exact Hs1].
  apply nth_error_ext. intros n.
  rewrite !nth_error_map.
  assert (Hl : length ss1 = length ss2).
  { rewrite (filter_states_length _ _ _ H1), (filter_states_length _ _ _ H2).
    exact Hlen. }
  destruct (nth_error ss1 n) as [a|] eqn:Ha; destruct (nth_error ss2 n) as [b|] eqn:Hb;
    simpl; trivial.
  - specialize (Hs1 _ _ Ha). specialize (Hs2 _ _ Hb). congruence.
  - apply nth_error_None in Hb. assert (n < length ss1)%nat
      by (apply nth_error_Some; congruence). lia.
  - apply nth_error_None in Ha. assert (n < length ss2)%nat
      by (apply nth_error_Some; congruence). lia.
Qed.

Lemma covariance_independent_of_measurements_witness :
  exists ss1 ss2,
    filter_states shipped [1; 2; 3]%float = Ok ss1 /\
    filter_states shipped [6; 5; 4]%float = Ok ss2 /\
    map self_cov ss1 = map self_cov ss2.
Proof.
  assert (H1 : { ss | filter_states shipped [1; 2; 3]%float = Ok ss /\
                      Forall (fun s => isnan (self_x s) = false) ss }).
  { eexists. split; [vm_compute; reflexivity | repeat constructor]. }
  assert (H2 : { ss | filter_states shipped [6; 5; 4]%float = Ok ss /\
                      Forall (fun s => isnan (self_x s) = false) ss }).
  { eexists. split; [vm_compute; reflexivity | repeat constructor]. }
  destruct H1 as (ss1 & Hs1 & Hx1). destruct H2 as (ss2 & Hs2 & Hx2).
  exists ss1, ss2. split; [exact Hs1|]. split; [exact Hs2|].
  exact (proj1 (covariance_independent_of_measurements
                  FILTER_R FILTER_Q [1; 2; 3]%float [6; 5; 4]%float ss1 ss2
                  eq_refl eq_refl Hs1 Hs2 Hx1 Hx2)).
Defined.

(** ** The loop of [load_data] *)

(** The [f_mag] column of [load_data] is the filter run over the [mag]
    column. *)
Lemma load_lines_filter_run (self self' : DataStream float)
      (lines : list raw) (recs : list record) :
  load_lines self lines = Ok (self', recs) ->
  filter_run self (map mag lines) = Ok (self', map f_mag recs).
Proof.
  revert self self' recs.
  induction lines as [|l lines IH]; simpl; intros self self' recs Hl.
  - injection Hl as <- <-. reflexivity.
  - inv_bind Hl. destruct v as [s1 fm]. inv_bind Hl. inv_bind Hl.
    inv_bind Hl. destruct v1 as [s2 rest]. injection Hl as <- <-.
    rewrite Hc. simpl. rewrite (IH _ _ _ Hc2). reflexivity.
Qed.

Lemma load_data_filter_run (self self' : DataStream float)
      (lines : list raw) (recs : list record) :
  load_data self lines = Ok (self', recs) ->
  filter_run self (map mag lines) = Ok (self', map f_mag recs).
Proof.
  unfold load_data. intros Hl. inv_bind Hl. destruct v as [s1 parsed].
  destruct parsed as [|p parsed]; [discriminate|]. injection Hl as <- <-.
  apply load_lines_filter_run. exact Hc.
Qed.

Lemma last_firstn_nth {X : Type} (l : list X) (i : nat) (a d : X) :
  nth_error l i = Some a -> last (firstn (S i) l) d = a.
Proof.
  revert i. induction l as [|b l IH]; intros [|i] Hn; try discriminate.
  - simpl in Hn. injection Hn as <-. destruct l; reflexivity.
  - simpl in Hn. specialize (IH _ Hn).
    change (firstn (S (S i)) (b :: l)) with (b :: firstn (S i) l).
    destruct l as [|c l]; [destruct i; discriminate|].
    simpl in *. exact IH.
Qed.

(** C6: the filtered magnitude recorded at index [i] of a full run is the
    last value returned when only the magnitudes 0..i are replayed through
    a fresh filter; so it is the same in two full runs whose magnitudes
    agree up to index [i]. *)
Theorem causality (r q : float) (lines : list raw)
        (self' : DataStream float) (recs : list record)
        (i : nat) (rec : record) :
  load_data (init r q) lines = Ok (self', recs) ->
  nth_error recs i = Some rec ->
  (exists selfi ys,
      filter_run (init r q) (map mag (firstn (S i) lines)) = Ok (selfi, ys) /\
      length ys = S i /\
      last ys PrimFloat.nan = f_mag rec) /\
  (forall lines2 self2 recs2 rec2,
      load_data (init r q) lines2 = Ok (self2, recs2) ->
      nth_error recs2 i = Some rec2 ->
      map mag (firstn (S i) lines2) = map mag (firstn (S i) lines) ->
      f_mag rec2 = f_mag rec).
Proof.
  intros Hl Hi.
  assert (Hprefix : forall lines0 self0 recs0 rec0,
             load_data (init r q) lines0 = Ok (self0, recs0) ->
             nth_error recs0 i = Some rec0 ->
             exists selfi ys,
               filter_run (init r q) (map mag (firstn (S i) lines0))
               = Ok (selfi, ys) /\
               length ys = S i /\ last ys PrimFloat.nan = f_mag rec0).
  { intros lines0 self0 recs0 rec0 Hl0 Hi0.
    apply load_data_filter_run in Hl0.
    destruct (filter_run_prefix _ _ _ _ (S i) Hl0) as (selfi & Hp).
    rewrite <- firstn_map. exists selfi, (firstn (S i) (map f_mag recs0)).
    split; [exact Hp|]. split.
    - rewrite (filter_run_length _ _ _ _ Hp), length_firstn.
      apply filter_run_length in Hl0. rewrite <- Hl0, length_map.
      assert (i < length recs0)%nat by (apply nth_error_Some; congruence). lia.
    - apply last_firstn_nth. rewrite nth_error_map, Hi0. reflexivity. }
  split; [eauto|].
  intros lines2 self2 recs2 rec2 Hl2 Hi2 Heq.
  destruct (Hprefix _ _ _ _ Hl Hi) as (s1 & ys1 & Hr1 & _ & <-).
  destruct (Hprefix _ _ _ _ Hl2 Hi2) as (s2 & ys2 & Hr2 & _ & <-).
  rewrite Heq in Hr2. congruence.
Qed.

Lemma causality_witness :
  exists self' r0 r1,
    load_data (init FILTER_R FILTER_Q) scenario = Ok (self', [r0; r1]) /\
    exists selfi ys,
      filter_run (init FILTER_R FILTER_Q) (map mag (firstn 2 scenario))
      = Ok (selfi, ys) /\
      length ys = 2%nat /\ last ys PrimFloat.nan = f_mag r1.
Proof.
  assert (Hrun : { out | load_data (init FILTER_R FILTER_Q) scenario = Ok out }).
  { eexists. vm_compute. reflexivity. }
  destruct Hrun as [[self' recs] Hrun].
  destruct recs as [|r0 [|r1 [|r2 recs]]];
    try (exfalso; vm_compute in Hrun; discriminate).
  exists self', r0, r1. split; [exact Hrun|].
  exact (proj1 (causality FILTER_R FILTER_Q scenario self' [r0; r1] 1 r1
                          Hrun eq_refl)).
Defined.

(** ** The calendar conversion on concrete Julian Days *)

(** The example of the docstring of [DataStream]: the model computes the
    very [datetime] the source documents. *)
Example jd_to_datetime_docstring :
  Calendar.jd_to_datetime 2458126.22243%float
  = Ok (mkDatetime 2018 1 7 17 20 17 952007).
Proof. vm_compute. reflexivity. Qed.

(** C3: Julian Day 2451545.0 converts to 2000-01-01T12:00:00.000000. *)
Theorem jd_to_datetime_J2000 :
  Calendar.jd_to_datetime 2451545.0%float
  = Ok (mkDatetime 2000 1 1 12 0 0 0).
Proof. vm_compute. reflexivity. Qed.

(** C5 (the code diverges): at the binary64 Julian Day 2458125.500601852,
    which is 2018-01-07 00:00:51.9999996, the fractional second rounds to
    1000000 microseconds, and the [datetime] constructor raises. *)
Theorem jd_to_datetime_microsecond_overflow :
  Calendar.jd_to_fields 2458125.500601852%float
  = Ok (2018, 1, 7, 0, 0, 51, 1000000)%Z /\
  Calendar.jd_to_datetime 2458125.500601852%float = Raise ValueError.
Proof. split; vm_compute; reflexivity. Qed.

(** When the conversion returns, the fields of the result are in the
    ranges the [datetime] constructor enforces. *)
Lemma jd_to_datetime_fields (jd : float) (d : datetime) :
  Calendar.jd_to_datetime jd = Ok d ->
  (1 <= year d <= 9999 /\ 1 <= month d <= 12 /\
   1 <= day d <= days_in_month (year d) (month d) /\
   0 <= hour d <= 23 /\ 0 <= minute d <= 59 /\ 0 <= second d <= 59 /\
   0 <= microsecond d <= 999999)%Z.
Proof.
  unfold Calendar.jd_to_datetime. intros Hd. inv_bind Hd.
  destruct v as [[[[[[y mo] dd] h] mi] sc] us].
  unfold datetime_new, between in Hd.
  destruct (_ && _) eqn:Hchk in Hd; [|discriminate]. injection Hd as <-.
  repeat (apply andb_true_iff in Hchk; destruct Hchk as [Hchk ?]).
  repeat match goal with
         | H : (_ && _) = true |- _ => apply andb_true_iff in H; destruct H
         | H : (_ <=? _)%Z = true |- _ => apply Z.leb_le in H
         end.
  simpl. lia.
Qed.

(** ** The order of timestamps *)







(** ** The threshold 2299160 *)









(** ** The filter in binary64, on concrete series *)

(** C8: on the two records of the scenario, with R = 0.002 and Q = 0.1, the
    first filtered magnitude is the first raw magnitude and the second lies
    strictly between the two raw magnitudes. *)
Theorem end_to_end_scenario :
  exists self' r0 r1,
    load_data shipped scenario = Ok (self', [r0; r1]) /\
    f_mag r0 = (-0.09398)%float /\
    (-0.09398 <? f_mag r1)%float = true /\
    (f_mag r1 <? -0.09350)%float = true.
Proof.
  do 3 eexists. split; [vm_compute; reflexivity|].
  repeat split; vm_compute; reflexivity.
Qed.

(** C1 (as stated, refuted): with R = Q = 2^-1074, both positive, two
    finite measurements leave the covariance at minus infinity. *)
Lemma covariance_negative_for_tiny_noise :
  (0 <? tiny)%float = true /\
  covariances (init tiny tiny) [0; 0]%float = Ok [tiny; neg_infinity] /\
  (neg_infinity <? 0)%float = true.
Proof. repeat split; vm_compute; reflexivity. Qed.

(** C7 (as stated, refuted): with R = Q = 2^-1074 and the constant
    measurement 0, the covariance goes down, up and down again, and every
    second estimate is a NaN. *)
Lemma constant_series_oscillates_for_tiny_noise :
  (0 <? tiny)%float = true /\
  covariances (init tiny tiny) [0; 0; 0; 0]%float
  = Ok [tiny; neg_infinity; tiny; neg_infinity] /\
  estimates (init tiny tiny) [0; 0; 0; 0]%float
  = Ok [0; PrimFloat.nan; 0; PrimFloat.nan]%float /\
  (neg_infinity <? tiny)%float = true.
Proof. repeat split; vm_compute; reflexivity. Qed.

(** C9 (as stated, refuted): two series of four finite measurements, the
    shipped R and Q; in the first the estimate overflows to infinity at the
    second call and is a NaN after the third, so the fourth call takes the
    first-call branch again and resets the covariance to Q. *)
Lemma covariance_depends_on_measurements :
  forallb is_finite [- huge; huge; 0; 0]%float = true /\
  estimates shipped [- huge; huge; 0; 0]%float
  = Ok [- huge; infinity; PrimFloat.nan; 0]%float /\
  covariances shipped [- huge; huge; 0; 0]%float
  = Ok [0.1; 0.050495049504950498; 0.034424100766134273; 0.1]%float /\
  covariances shipped [0; 0; 0; 0]%float
  = Ok [0.1; 0.050495049504950498; 0.034424100766134273;
        0.026699168667107052]%float /\
  (0.026699168667107052 <? 0.1)%float = true.
Proof. repeat split; vm_compute; reflexivity. Qed.

(** C10 (as stated, refuted): two finite measurements, the shipped R and
    Q; their difference overflows and the second estimate is infinity,
    above both measurements. *)
Lemma estimate_leaves_measurement_range :
  forallb is_finite [- huge; huge]%float = true /\
  estimates shipped [- huge; huge]%float = Ok [- huge; infinity]%float /\
  (huge <? infinity)%float = true.
Proof. repeat split; vm_compute; reflexivity. Qed.

(** ** The covariance in binary64, with the shipped R and Q *)

Section Totality.
Context {T : Type} `{PyFloat T}.

(** A call raises only where the computation of the covariance does. *)
Lemma kalman_filter_of_cov (self : DataStream T) (m c : T) :
  cov_written self = Ok c ->
  exists y, kalman_filter self m = Ok (set_x_cov self y c, y).
Proof.
  unfold kalman_filter, cov_written, cov_first, cov_next.
  destruct (isnan (self_x self)).
  - destruct (truediv (of_int 1) (of_int (self_C self))) as [d|e]; simpl;
      intros Hc; [injection Hc as <- | discriminate].
    eexists. reflexivity.
  - destruct (truediv (of_int 1) _) as [d|e]; simpl;
      intros Hc; [injection Hc as <- | discriminate].
    eexists. reflexivity.
Qed.

Lemma same_config_set (self : DataStream T) (x c : T) :
  same_config self (set_x_cov self x c).
Proof. repeat split. Qed.

End Totality.

Lemma cov_ok_prefix : forallb cov_ok (seq 0 131) = true.
Proof. vm_compute. reflexivity. Qed.

(** From call 130 on, the covariance no longer changes. *)
Lemma cov_seq_fixed : cov_seq shipped 130 = cov_seq shipped 129.
Proof. vm_compute. reflexivity. Qed.

Lemma cov_seq_stable (n : nat) :
  (129 <= n)%nat -> cov_seq shipped n = cov_seq shipped 129.
Proof.
  induction 1 as [|n Hn IH]; [reflexivity|].
  change (cov_seq shipped (S n))
    with (c <- cov_seq shipped n ;;
          cov_next (set_x_cov shipped (self_x shipped) c)).
  rewrite IH. exact cov_seq_fixed.
Qed.

Lemma cov_ok_all (n : nat) : cov_ok n = true.
Proof.
  destruct (Nat.le_gt_cases 129 n) as [Hn|Hn].
  - unfold cov_ok. rewrite (cov_seq_stable n Hn).
    change (cov_ok 129 = true).
    apply (proj1 (forallb_forall _ _) cov_ok_prefix). apply in_seq. lia.
  - apply (proj1 (forallb_forall _ _) cov_ok_prefix). apply in_seq. lia.
Qed.

Lemma cov_ok_Ok (n : nat) :
  exists c, cov_seq shipped n = Ok c /\ (0 <=? c)%float = true.
Proof.
  assert (Hn := cov_ok_all n). unfold cov_ok in Hn.
  destruct (cov_seq shipped n) as [c|e]; [|discriminate].
  exists c. split; trivial.
Qed.

(** One call on an object with the shipped configuration whose covariance
    is on the trajectory [cov_seq shipped], or whose estimate is a NaN:
    the call returns and leaves the covariance on the trajectory. *)
Lemma shipped_step (s : DataStream float) (m : float) :
  same_config shipped s ->
  (is_nan (self_x s) = true \/ exists n, cov_seq shipped n = Ok (self_cov s)) ->
  exists s' y,
    kalman_filter s m = Ok (s', y) /\ same_config shipped s' /\
    exists n, cov_seq shipped n = Ok (self_cov s').
Proof.
  intros Hcfg Hs.
  assert (Hw : exists n, cov_seq shipped n = cov_written s).
  { unfold cov_written. change (isnan (self_x s)) with (is_nan (self_x s)).
    destruct (is_nan (self_x s)) eqn:Hnan.
    - exists 0%nat. apply cov_first_config. exact Hcfg.
    - destruct Hs as [Hs | [n Hn]]; [discriminate|].
      exists (S n). cbn [cov_seq]. rewrite Hn. simpl.
      apply cov_next_config; [exact Hcfg | reflexivity]. }
  destruct Hw as [n Hn]. destruct (cov_ok_Ok n) as (c & Hc & _).
  rewrite Hn in Hc.
  destruct (kalman_filter_of_cov s m c Hc) as [y Hy].
  exists (set_x_cov s y c), y. split; [exact Hy|]. split.
  - eapply same_config_trans; [exact Hcfg | apply same_config_set].
  - exists n. rewrite Hn, Hc. reflexivity.
Qed.

Lemma shipped_states (s : DataStream float) (ms : list float) :
  same_config shipped s ->
  (is_nan (self_x s) = true \/ exists n, cov_seq shipped n = Ok (self_cov s)) ->
  exists ss,
    filter_states s ms = Ok ss /\
    Forall (fun s' => exists n, cov_seq shipped n = Ok (self_cov s')) ss.
Proof.
  revert s. induction ms as [|m ms IH]; intros s Hcfg Hs.
  - exists []. split; [reflexivity | constructor].
  - destruct (shipped_step s m Hcfg Hs) as (s1 & y & Hk & Hcfg1 & Hn1).
    destruct (IH s1 Hcfg1 (or_intror Hn1)) as (ss & Hss & Hall).
    exists (s1 :: ss). cbn [filter_states]. rewrite Hk. simpl. rewrite Hss.
    split; [reflexivity | constructor; assumption].
Qed.

(** ** The filter in exact arithmetic *)

Section ExactFilter.
Variables r q : R.
Hypothesis Hr : (0 < r)%R.
Hypothesis Hq : (0 < q)%R.

(** The first call stores the measurement and Q. *)
Lemma exact_first (m : R) :
  kalman_filter (init (Some r) (Some q)) (Some m)
  = Ok (exact_obj r q m q, Some m).
Proof.
  unfold kalman_filter, init, exact_obj, set_x_cov. simpl.
  unfold Exact.truediv. destruct (Req_dec_T 1 0) as [H10|_]; [lra|]. simpl.
  replace (1 / 1 * m)%R with m by field.
  replace (1 / 1 * q * (1 / 1))%R with q by field.
  reflexivity.
Qed.

(** A later call is one step of the textbook recursion. *)
Lemma exact_next (e c m : R) :
  (0 < c)%R ->
  kalman_filter (exact_obj r q e c) (Some m)
  = Ok (exact_obj r q (e + gain r q c * (m - e)) (cov_update r q c),
        Some (e + gain r q c * (m - e))%R).
Proof.
  intros Hc.
  unfold kalman_filter, exact_obj, set_x_cov, gain, cov_update. simpl.
  unfold Exact.truediv.
  destruct (Req_dec_T (1 * (1 * c * 1 + r) * 1 + q) 0) as [H0|_]; [lra|].
  simpl.
  replace (1 * e + 0 + (1 * c * 1 + r) * 1 * (1 / (1 * (1 * c * 1 + r) * 1 + q))
                       * (m - 1 * (1 * e + 0)))%R
    with (e + (c + r) / (c + r + q) * (m - e))%R by (field; lra).
  replace (1 * c * 1 + r - (1 * c * 1 + r) * 1 * (1 / (1 * (1 * c * 1 + r) * 1 + q))
                           * 1 * (1 * c * 1 + r))%R
    with ((c + r) * q / (c + r + q))%R by (field; lra).
  reflexivity.
Qed.

Lemma cov_update_pos (c : R) : (0 < c)%R -> (0 < cov_update r q c)%R.
Proof.
  intros Hc. unfold cov_update.
  apply Rdiv_lt_0_compat; [apply Rmult_lt_0_compat|]; lra.
Qed.

Lemma gain_bounds (c : R) : (0 < c)%R -> (0 < gain r q c < 1)%R.
Proof.
  intros Hc. unfold gain. split.
  - apply Rdiv_lt_0_compat; lra.
  - apply (Rmult_lt_reg_r (c + r + q)); [lra|].
    unfold Rdiv. rewrite Rmult_assoc, Rinv_l by lra. lra.
Qed.

(** The run from an initialised object is the textbook recursion; it
    never raises. *)
Lemma exact_states (ms : list R) (e c : R) :
  (0 < c)%R ->
  filter_states (exact_obj r q e c) (map Some ms)
  = Ok (exact_objs r q (exact_trace r q e c ms)).
Proof.
  revert e c. induction ms as [|m ms IH]; intros e c Hc; [reflexivity|].
  cbn [map filter_states exact_trace]. rewrite (exact_next e c m Hc). simpl.
  rewrite IH by (apply cov_update_pos; exact Hc). reflexivity.
Qed.

(** The same from a fresh object. *)
Lemma exact_fresh_states (m : R) (ms : list R) :
  filter_states (init (Some r) (Some q)) (map Some (m :: ms))
  = Ok (exact_objs r q ((m, q) :: exact_trace r q m q ms)).
Proof.
  cbn [map filter_states]. rewrite exact_first. simpl.
  rewrite exact_states by exact Hq. reflexivity.
Qed.

End ExactFilter.

Section Views.
Context {T : Type} `{PyFloat T}.

Lemma filter_states_run (self : DataStream T) (ms : list T)
      (ss : list (DataStream T)) :
  filter_states self ms = Ok ss ->
  exists self', filter_run self ms = Ok (self', map self_x ss).
Proof.
  revert self ss. induction ms as [|m ms IH]; simpl; intros self ss Hs.
  - injection Hs as <-. exists self. reflexivity.
  - inv_bind Hs. destruct v as [s1 y]. inv_bind Hs. injection Hs as <-.
    destruct (IH _ _ Hc0) as (self' & Hrun).
    exists self'. rewrite Hc. simpl. rewrite Hrun. simpl.
    destruct (kalman_filter_Ok _ _ _ _ Hc) as (-> & _). reflexivity.
Qed.

End Views.

(** ** The textbook recursion *)

Section Recursion.
Variables r q : R.
Hypothesis Hr : (0 < r)%R.
Hypothesis Hq : (0 < q)%R.

Lemma cov_real_pos (n : nat) : (0 < cov_real r q n)%R.
Proof.
  induction n as [|n IH]; simpl; [exact Hq | apply cov_update_pos; assumption].
Qed.

(** The covariances of a run are [cov_real], whatever is measured. *)
Lemma exact_trace_cov (ms : list R) (e : R) (k n : nat) (e' c' : R) :
  nth_error (exact_trace r q e (cov_real r q k) ms) n = Some (e', c') ->
  c' = cov_real r q (S k + n).
Proof.
  revert e k n. induction ms as [|m ms IH]; intros e k n Hn.
  - destruct n; discriminate.
  - cbn [exact_trace] in Hn. destruct n as [|n]; simpl in Hn.
    + injection Hn as _ <-. rewrite Nat.add_0_r. reflexivity.
    + change (cov_update r q (cov_real r q k)) with (cov_real r q (S k)) in Hn.
      apply IH in Hn. rewrite Hn. f_equal. lia.
Qed.

(** A corrected estimate lies between the previous one and the
    measurement. *)
Lemma blend_between (e c m : R) :
  (0 < c)%R ->
  (Rmin e m <= e + gain r q c * (m - e) <= Rmax e m)%R.
Proof.
  intros Hc. destruct (gain_bounds r q Hr Hq c Hc) as [Hk0 Hk1].
  set (k := gain r q c) in *.
  destruct (Rle_dec e m) as [Hem|Hem].
  - rewrite Rmin_left, Rmax_right by lra.
    assert (0 <= k * (m - e))%R by (apply Rmult_le_pos; lra).
    assert (0 <= (1 - k) * (m - e))%R by (apply Rmult_le_pos; lra).
    lra.
  - rewrite Rmin_right, Rmax_left by lra.
    assert (0 <= k * (e - m))%R by (apply Rmult_le_pos; lra).
    assert (0 <= (1 - k) * (e - m))%R by (apply Rmult_le_pos; lra).
    lra.
Qed.

(** Every estimate of a run lies between two of the values seen so far:
    the starting estimate and the measurements up to that call. *)
Lemma exact_trace_between (ms : list R) (e c : R) (n : nat) (e' c' : R) :
  (0 < c)%R ->
  nth_error (exact_trace r q e c ms) n = Some (e', c') ->
  exists a b, In a (e :: firstn (S n) ms) /\ In b (e :: firstn (S n) ms) /\
              (a <= e' <= b)%R.
Proof.
  revert e c n. induction ms as [|m ms IH]; intros e c n Hc Hn.
  - destruct n; discriminate.
  - cbn [exact_trace] in Hn.
    assert (Hb := blend_between e c m Hc).
    set (e1 := (e + gain r q c * (m - e))%R) in *.
    assert (Hlo : exists a, In a [e; m] /\ (a <= e1)%R).
    { destruct (Rle_dec e m).
      - exists e. rewrite Rmin_left in Hb by lra. simpl. split; [tauto | lra].
      - exists m. rewrite Rmin_right in Hb by lra. simpl. split; [tauto | lra]. }
    assert (Hhi : exists b, In b [e; m] /\ (e1 <= b)%R).
    { destruct (Rle_dec e m).
      - exists m. rewrite Rmax_right in Hb by lra. simpl. split; [tauto | lra].
      - exists e. rewrite Rmax_left in Hb by lra. simpl. split; [tauto | lra]. }
    destruct Hlo as (a0 & Ha0 & Hlo). destruct Hhi as (b0 & Hb0 & Hhi).
    assert (Hin : forall k v, In v [e; m] ->
                              In v (e :: firstn (S k) (m :: ms))).
    { intros k v [<- | [<- | []]]; simpl; tauto. }
    destruct n as [|n]; simpl in Hn.
    + injection Hn as <- _. exists a0, b0. repeat split; auto.
    + destruct (IH e1 _ n (cov_update_pos r q Hr Hq c Hc) Hn)
        as (a & b & Ha & Hb' & Hab).
      assert (Hweak : forall v, In v (e1 :: firstn (S n) ms) ->
                                v = e1 \/ In v (e :: firstn (S (S n)) (m :: ms))).
      { intros v [<- | Hv]; [left; reflexivity | right].
        change (firstn (S (S n)) (m :: ms)) with (m :: firstn (S n) ms).
        simpl. tauto. }
      destruct (Hweak _ Ha) as [-> | Ha']; destruct (Hweak _ Hb') as [-> | Hb''].
      * exists a0, b0. repeat split; auto; lra.
      * exists a0, b. repeat split; auto; lra.
      * exists a, b0. repeat split; auto; lra.
      * exists a, b. repeat split; auto; lra.
Qed.

(** Consecutive estimates differ by a gain strictly between 0 and 1 times
    the innovation. *)
Lemma exact_trace_gain (ms : list R) (e c : R) (n : nat) (e1 c1 e2 c2 m : R) :
  (0 < c)%R ->
  nth_error (exact_trace r q e c ms) n = Some (e1, c1) ->
  nth_error (exact_trace r q e c ms) (S n) = Some (e2, c2) ->
  nth_error ms (S n) = Some m ->
  exists k, (0 < k < 1)%R /\ e2 = (e1 + k * (m - e1))%R.
Proof.
  revert e c n. induction ms as [|m0 ms IH]; intros e c n Hc H1 H2 Hm.
  - destruct n; discriminate.
  - cbn [exact_trace] in H1, H2. destruct n as [|n].
    + simpl in H1. injection H1 as <- <-.
      destruct ms as [|m1 ms]; [discriminate|].
      simpl in Hm. injection Hm as <-.
      simpl in H2. injection H2 as <- _.
      eexists. split; [|reflexivity].
      apply gain_bounds; trivial. apply cov_update_pos; trivial.
    + change (nth_error (?a :: ?l) (S ?k)) with (nth_error l k) in H1, H2, Hm.
      apply (IH _ _ n (cov_update_pos r q Hr Hq c Hc) H1 H2 Hm).
Qed.

(** A constant series keeps the estimate at the measurement. *)
Lemma exact_trace_constant (m c : R) (k n : nat) (e' c' : R) :
  nth_error (exact_trace r q m c (repeat m k)) n = Some (e', c') -> e' = m.
Proof.
  revert c n. induction k as [|k IH]; intros c n Hn.
  - destruct n; discriminate.
  - cbn [repeat exact_trace] in Hn.
    replace (m + gain r q c * (m - m))%R with m in Hn by ring.
    destruct n as [|n]; simpl in Hn.
    + injection Hn as <- _. reflexivity.
    + eapply IH; eauto.
Qed.

End Recursion.

(** ** Convergence of the covariance *)

Section Convergence.
Variables r q : R.
Hypothesis Hr : (0 < r)%R.
Hypothesis Hq : (0 < q)%R.

#[local] Notation "'cs'" := (cov_star r q).

Lemma cov_star_root : (cs * cs + r * cs - r * q = 0)%R.
Proof.
  unfold cov_star.
  assert (HD : (0 <= r * r + 4 * r * q)%R) by nra.
  assert (Hss := sqrt_sqrt _ HD).
  set (s := sqrt (r * r + 4 * r * q)) in *.
  replace ((s - r) / 2 * ((s - r) / 2) + r * ((s - r) / 2) - r * q)%R
    with ((s * s - (r * r + 4 * r * q)) / 4)%R by field.
  rewrite Hss. field.
Qed.

Lemma cov_star_pos : (0 < cs)%R.
Proof.
  unfold cov_star.
  assert (Hlt : (sqrt (r * r) < sqrt (r * r + 4 * r * q))%R).
  { apply sqrt_lt_1_alt. nra. }
  rewrite sqrt_square in Hlt by lra. lra.
Qed.

Lemma cov_update_diff (c d : R) :
  (0 < c)%R -> (0 < d)%R ->
  (cov_update r q c - cov_update r q d
   = q / (c + r + q) * (q / (d + r + q)) * (c - d))%R.
Proof. intros Hc Hd. unfold cov_update. field. lra. Qed.

(** [cov_star] is a fixed point of the update: it solves the equation
    [cov = ((A^2 cov + R) Q) / (A^2 cov + R + Q)] with [A = 1]. *)
Lemma cov_star_fixed : cov_update r q cs = cs.
Proof.
  assert (Hp := cov_star_pos). assert (Hroot := cov_star_root).
  unfold cov_update.
  apply (Rmult_eq_reg_r (cs + r + q)); [|lra].
  unfold Rdiv. rewrite Rmult_assoc, Rinv_l by lra. nra.
Qed.

Lemma factor_bounds (c : R) :
  (0 < c)%R ->
  (0 < q / (c + r + q) * (q / (cs + r + q)) <= q / (r + q))%R.
Proof.
  intros Hc. assert (Hp := cov_star_pos).
  assert (H1 : (0 < q / (c + r + q) <= q / (r + q))%R).
  { split; [apply Rdiv_lt_0_compat; lra|].
    unfold Rdiv. apply Rmult_le_compat_l; [lra|].
    apply Rinv_le_contravar; lra. }
  assert (H2 : (0 < q / (cs + r + q) <= 1)%R).
  { split; [apply Rdiv_lt_0_compat; lra|].
    apply (Rmult_le_reg_r (cs + r + q)); [lra|].
    unfold Rdiv. rewrite Rmult_assoc, Rinv_l by lra. lra. }
  split; [apply Rmult_lt_0_compat; tauto|].
  rewrite <- (Rmult_1_r (q / (r + q))).
  apply Rmult_le_compat; lra.
Qed.

Lemma cov_update_above (c : R) :
  (cs < c)%R -> (cs < cov_update r q c)%R.
Proof.
  intros Hc. assert (Hp := cov_star_pos).
  assert (Hd := cov_update_diff c cs ltac:(lra) Hp).
  rewrite cov_star_fixed in Hd.
  destruct (factor_bounds c ltac:(lra)) as [Hf _].
  assert (0 < q / (c + r + q) * (q / (cs + r + q)) * (c - cs))%R
    by (apply Rmult_lt_0_compat; lra).
  lra.
Qed.

Lemma cov_update_below (c : R) :
  (cs < c)%R -> (cov_update r q c < c)%R.
Proof.
  intros Hc. assert (Hp := cov_star_pos). assert (Hroot := cov_star_root).
  unfold cov_update.
  apply (Rmult_lt_reg_r (c + r + q)); [lra|].
  unfold Rdiv. rewrite Rmult_assoc, Rinv_l by lra.
  assert (0 < (c - cs) * (c + cs + r))%R by (apply Rmult_lt_0_compat; lra).
  nra.
Qed.

Lemma cov_real_above (n : nat) : (cs < cov_real r q n)%R.
Proof.
  induction n as [|n IH]; simpl.
  - assert (Hp := cov_star_pos). assert (Hroot := cov_star_root). nra.
  - apply cov_update_above. exact IH.
Qed.

(** The covariance decreases strictly from call to call. *)
Lemma cov_real_decreasing (n : nat) :
  (cov_real r q (S n) < cov_real r q n)%R.
Proof. simpl. apply cov_update_below, cov_real_above. Qed.

Lemma cov_real_geometric (n : nat) :
  (cov_real r q n - cs <= (q / (r + q)) ^ n * (q - cs))%R.
Proof.
  induction n as [|n IH]; simpl; [lra|].
  assert (Hp := cov_star_pos). assert (Hn := cov_real_above n).
  assert (Hd := cov_update_diff (cov_real r q n) cs ltac:(lra) Hp).
  rewrite cov_star_fixed in Hd. rewrite Hd.
  destruct (factor_bounds (cov_real r q n) ltac:(lra)) as [Hf0 Hf1].
  rewrite (Rmult_assoc (q / (r + q))).
  apply Rmult_le_compat; lra.
Qed.

(** The covariance converges to [cov_star]. *)
Lemma cov_real_converges : Un_cv (cov_real r q) cs.
Proof.
  intros eps Heps.
  assert (Hq0 : (0 < q - cs)%R) by (generalize (cov_real_above 0); simpl; lra).
  assert (Hrho : (Rabs (q / (r + q)) < 1)%R).
  { rewrite Rabs_right.
    - apply (Rmult_lt_reg_r (r + q)); [lra|].
      unfold Rdiv. rewrite Rmult_assoc, Rinv_l by lra. lra.
    - apply Rle_ge, Rlt_le, Rdiv_lt_0_compat; lra. }
  destruct (pow_lt_1_zero _ Hrho (eps / (q - cs))
                          ltac:(apply Rdiv_lt_0_compat; lra)) as [N HN].
  exists N. intros n Hn. specialize (HN n Hn).
  assert (Hpow : (0 <= (q / (r + q)) ^ n)%R).
  { apply pow_le, Rlt_le, Rdiv_lt_0_compat; lra. }
  rewrite Rabs_right in HN by lra.
  unfold Rdist. rewrite Rabs_right
    by (generalize (cov_real_above n); lra).
  apply Rle_lt_trans with (1 := cov_real_geometric n).
  apply (Rmult_lt_compat_r (q - cs)) in HN; [|lra].
  unfold Rdiv in HN at 2. rewrite Rmult_assoc, Rinv_l, Rmult_1_r in HN by lra.
  exact HN.
Qed.

End Convergence.

(** ** The filter invariants *)

Lemma same_config_refl {T : Type} (s : DataStream T) : same_config s s.
Proof. repeat split. Qed.

Lemma exact_trace_pos (r q : R) (ms : list R) (e c : R) :
  (0 < r)%R -> (0 < q)%R -> (0 < c)%R ->
  Forall (fun ec => (0 < snd ec)%R) (exact_trace r q e c ms).
Proof.
  intros Hr Hq. revert e c. induction ms as [|m ms IH]; intros e c Hc.
  - constructor.
  - cbn [exact_trace]. assert (Hc' := cov_update_pos r q Hr Hq c Hc).
    constructor; [exact Hc' | apply IH; exact Hc'].
Qed.

Lemma exact_trace_length (r q : R) (ms : list R) (e c : R) :
  length (exact_trace r q e c ms) = length ms.
Proof.
  revert e c. induction ms as [|m ms IH]; intros e c; simpl; [|rewrite IH];
    reflexivity.
Qed.

Lemma nth_error_map_fst {X Y : Type} (l : list (X * Y)) (n : nat) (a : X) :
  nth_error (map fst l) n = Some a -> exists b, nth_error l n = Some (a, b).
Proof.
  rewrite nth_error_map. destruct (nth_error l n) as [[a' b]|]; simpl;
    intros Hn; [injection Hn as <-; exists b; reflexivity | discriminate].
Qed.

Lemma nth_error_exact_objs (r q : R) (l : list (R * R)) (n : nat)
      (s : DataStream Exact.xreal) :
  nth_error (exact_objs r q l) n = Some s ->
  exists e c, nth_error l n = Some (e, c) /\ s = exact_obj r q e c.
Proof.
  unfold exact_objs. rewrite nth_error_map.
  destruct (nth_error l n) as [[e c]|]; simpl; intros Hn;
    [injection Hn as <-; exists e, c; split; reflexivity | discriminate].
Qed.

Lemma first_cov_shipped : cov_written shipped = Ok FILTER_Q.
Proof. vm_compute. reflexivity. Qed.

(** C1 (as amended): in binary64 with the shipped R = 0.002 and Q = 0.1,
    on every series of measurements each call returns and leaves a
    covariance that is not negative, Q after the first call; in exact
    arithmetic the same holds for all positive R and Q. *)
Theorem covariance_nonnegative :
  (forall ms : list float,
      exists ss,
        filter_states shipped ms = Ok ss /\
        Forall (fun s => (0 <=? self_cov s)%float = true) ss /\
        (forall s, nth_error ss 0 = Some s -> self_cov s = FILTER_Q)) /\
  (forall (r q : R) (ms : list R),
      (0 < r)%R -> (0 < q)%R ->
      exists ss,
        filter_states (init (Some r) (Some q)) (map Some ms) = Ok ss /\
        Forall (fun s => exists c, self_cov s = Some c /\ (0 <= c)%R) ss /\
        (forall s, nth_error ss 0 = Some s -> self_cov s = Some q)).
Proof.
  split.
  - intros ms.
    destruct (shipped_states shipped ms (same_config_refl _)
                             (or_introl eq_refl)) as (ss & Hss & Hall).
    exists ss. split; [exact Hss|]. split.
    + apply Forall_impl with (2 := Hall). intros s [n Hn].
      destruct (cov_ok_Ok n) as (c & Hc & Hpos). congruence.
    + intros s Hs. destruct ms as [|m ms]; cbn [filter_states] in Hss.
      * injection Hss as <-. discriminate.
      * inv_bind Hss. destruct v as [s1 y]. inv_bind Hss. injection Hss as <-.
        simpl in Hs. injection Hs as <-.
        destruct (kalman_filter_Ok _ _ _ _ Hc) as (_ & _ & Hcov).
        rewrite first_cov_shipped in Hcov. congruence.
  - intros r q ms Hr Hq. destruct ms as [|m ms].
    + exists []. repeat split; [constructor | intros s Hs; discriminate].
    + rewrite (exact_fresh_states r q Hr Hq).
      eexists. split; [reflexivity|]. split.
      * constructor; [exists q; split; [reflexivity | lra]|].
        unfold exact_objs. apply Forall_map.
        apply Forall_impl with (2 := exact_trace_pos r q ms m q Hr Hq Hq).
        intros [e c] Hc. exists c. split; [reflexivity | simpl in Hc; lra].
      * intros s Hs. simpl in Hs. injection Hs as <-. reflexivity.
Qed.

Lemma covariance_nonnegative_witness :
  exists ss,
    filter_states (init (Some 2%R) (Some 1%R)) (map Some [3%R; 5%R]) = Ok ss /\
    Forall (fun s => exists c, self_cov s = Some c /\ (0 <= c)%R) ss /\
    (forall s, nth_error ss 0 = Some s -> self_cov s = Some 1%R).
Proof.
  apply (proj2 covariance_nonnegative 2%R 1%R [3%R; 5%R]); lra.
Defined.

Lemma self_x_exact_objs (r q : R) (l : list (R * R)) :
  map self_x (exact_objs r q l) = map Some (map fst l).
Proof. unfold exact_objs. rewrite !map_map. reflexivity. Qed.

(** C10 (as amended): in exact arithmetic, for all positive R and Q, the
    run over a series of measurements returns, each estimate lies between
    the least and the greatest of the measurements seen so far, and each
    correction adds to the previous estimate the innovation times a gain
    strictly between 0 and 1. *)
Theorem estimate_within_measurements (r q : R) (ms : list R) :
  (0 < r)%R -> (0 < q)%R ->
  exists self' ys,
    filter_run (init (Some r) (Some q)) (map Some ms) = Ok (self', map Some ys) /\
    length ys = length ms /\
    (forall i y, nth_error ys i = Some y ->
                 (MinRlist (firstn (S i) ms) <= y <= MaxRlist (firstn (S i) ms))%R) /\
    (forall i y y' m,
        nth_error ys i = Some y -> nth_error ys (S i) = Some y' ->
        nth_error ms (S i) = Some m ->
        exists k, (0 < k < 1)%R /\ y' = (y + k * (m - y))%R).
Proof.
  intros Hr Hq. destruct ms as [|m0 ms].
  - exists (init (Some r) (Some q)), []. split; [reflexivity|].
    split; [reflexivity|]. split; intros i; destruct i; discriminate.
  - destruct (filter_states_run _ _ _ (exact_fresh_states r q Hr Hq m0 ms))
      as (self' & Hrun).
    rewrite self_x_exact_objs in Hrun.
    exists self', (map fst ((m0, q) :: exact_trace r q m0 q ms)).
    split; [exact Hrun|]. split.
    + cbn [map length]. rewrite length_map, exact_trace_length. reflexivity.
    + cbn [map fst]. split.
      * intros i y Hi. destruct i as [|j].
        -- simpl in Hi. injection Hi as <-. simpl. lra.
        -- change (nth_error (map fst (exact_trace r q m0 q ms)) j = Some y) in Hi.
           apply nth_error_map_fst in Hi. destruct Hi as [c Hi].
           destruct (exact_trace_between r q Hr Hq ms m0 q j y c Hq Hi)
             as (a & b & Ha & Hb & Hab).
           change (firstn (S (S j)) (m0 :: ms)) with (m0 :: firstn (S j) ms).
           assert (Hmin := MinRlist_P1 _ _ Ha). assert (Hmax := MaxRlist_P1 _ _ Hb).
           lra.
      * intros i y y' m Hi Hi' Hm.
        change (nth_error (map fst (exact_trace r q m0 q ms)) i = Some y') in Hi'.
        change (nth_error ms i = Some m) in Hm.
        apply nth_error_map_fst in Hi'. destruct Hi' as [c' Hi'].
        destruct i as [|j].
        -- simpl in Hi. injection Hi as <-.
           destruct ms as [|m1 ms]; [discriminate|].
           simpl in Hm. injection Hm as <-.
           simpl in Hi'. injection Hi' as <- _.
           exists (gain r q q). split; [apply gain_bounds; assumption | reflexivity].
        -- change (nth_error (map fst (exact_trace r q m0 q ms)) j = Some y) in Hi.
           apply nth_error_map_fst in Hi. destruct Hi as [c Hi].
           exact (exact_trace_gain r q Hr Hq ms m0 q j y c y' c' m Hq Hi Hi' Hm).
Qed.

Lemma estimate_within_measurements_witness :
  exists self' ys,
    filter_run (init (Some 2%R) (Some 1%R)) (map Some [3%R; 5%R])
    = Ok (self', map Some ys) /\
    length ys = 2%nat /\
    (forall i y, nth_error ys i = Some y ->
                 (MinRlist (firstn (S i) [3; 5]) <= y
                  <= MaxRlist (firstn (S i) [3; 5]))%R) /\
    (forall i y y' m,
        nth_error ys i = Some y -> nth_error ys (S i) = Some y' ->
        nth_error [3%R; 5%R] (S i) = Some m ->
        exists k, (0 < k < 1)%R /\ y' = (y + k * (m - y))%R).
Proof.
  apply (estimate_within_measurements 2%R 1%R [3%R; 5%R]); lra.
Defined.

(** ** Multiplication by one in binary64 *)

(** The product of a binary64 value and 1.0 is that value: the integer
    product of the mantissas is the mantissa shifted by 52 bits, and the
    rounding of the specification shifts it back with nothing lost. *)
Section MulOne.
#[local] Open Scope Z_scope.

Lemma iter_shr_52 (m : positive) :
  SpecFloat.iter_pos shr_1 52 (Build_shr_record (Zpos (4503599627370496 * m)) false false)
  = Build_shr_record (Zpos m) false false.
Proof. reflexivity. Qed.

Lemma digits_shift_52 (m : positive) :
  Zpos (digits2_pos (4503599627370496 * m)) = Zpos (digits2_pos m) + 52.
Proof.
  change (digits2_pos (4503599627370496 * m))
    with (Nat.iter 52 Pos.succ (digits2_pos m)).
  generalize (digits2_pos m). intros d.
  assert (Hn : forall n, Zpos (Nat.iter n Pos.succ d) = Zpos d + Z.of_nat n).
  { induction n as [|n IH]; [simpl; lia|].
    rewrite Nat.iter_succ, Pos2Z.inj_succ, IH. lia. }
  rewrite Hn. reflexivity.
Qed.

Lemma round_aux_scaled (s : bool) (m : positive) (e : Z) :
  SpecFloat.bounded prec emax m e = true ->
  binary_round_aux prec emax s (Zpos (4503599627370496 * m)) (-52 + e) loc_Exact
  = S754_finite s m e.
Proof.
  intros Hb. unfold SpecFloat.bounded, canonical_mantissa in Hb.
  apply andb_true_iff in Hb. destruct Hb as [Hc He].
  apply Z.eqb_eq in Hc. 
  unfold binary_round_aux, shr_fexp.
  unfold Zdigits2 at 1. rewrite digits_shift_52.
  replace (Z.pos (digits2_pos m) + 52 + (-52 + e)) with (Z.pos (digits2_pos m) + e) by lia.
  rewrite Hc.
  replace (e - (-52 + e)) with 52 by lia.
  unfold shr at 1. cbn [shr_record_of_loc]. rewrite iter_shr_52.
  cbn [shr_m loc_of_shr_record round_nearest_even].
  replace (-52 + e + 52) with e by lia.
  cbn [Zdigits2]. rewrite Hc. rewrite Z.sub_diag. cbn [shr shr_record_of_loc shr_m].
  rewrite He. reflexivity.
Qed.

Lemma round_aux_scaled_r (s : bool) (m : positive) (e : Z) :
  SpecFloat.bounded prec emax m e = true ->
  binary_round_aux prec emax s (Zpos (m * 4503599627370496)) (e + -52) loc_Exact
  = S754_finite s m e.
Proof.
  intros Hb. rewrite Pos.mul_comm, Z.add_comm. apply round_aux_scaled. exact Hb.
Qed.

Lemma b64_mul_1_l (x : float) : (1 * x)%float = x.
Proof.
  apply Prim2SF_inj. rewrite mul_spec.
  assert (Hv := Prim2SF_valid x).
  change (Prim2SF 1) with (S754_finite false 4503599627370496 (-52)).
  destruct (Prim2SF x) as [s|s| |s m e]; try reflexivity.
  apply round_aux_scaled. exact Hv.
Qed.

Lemma b64_mul_1_r (x : float) : (x * 1)%float = x.
Proof.
  apply Prim2SF_inj. rewrite mul_spec.
  assert (Hv := Prim2SF_valid x).
  change (Prim2SF 1) with (S754_finite false 4503599627370496 (-52)).
  destruct (Prim2SF x) as [s|s| |s m e];
    try reflexivity; destruct s; try reflexivity;
    apply round_aux_scaled_r; exact Hv.
Qed.

End MulOne.

(** ** The first call *)

Lemma first_call_binary64 (r q m : float) :
  kalman_filter (init r q) m = Ok (set_x_cov (init r q) m q, m).
Proof.
  unfold kalman_filter.
  change (isnan (self_x (init r q))) with true. cbv iota.
  assert (H1 : truediv (of_int 1) (of_int (self_C (init r q))) = Ok 1%float)
    by (vm_compute; reflexivity).
  rewrite H1. cbn [bind mul Binary64.float_PyFloat].
  rewrite !b64_mul_1_l, b64_mul_1_r. reflexivity.
Qed.

(** C2: on a fresh filter ([C = 1]) the first call returns the measurement
    itself and stores Q as the covariance, bit for bit in binary64; for any
    non-zero [C], in exact arithmetic, it stores and returns
    [measurement / C] and sets the covariance to [Q / C^2]. *)
Theorem first_call_returns_measurement :
  (forall r q m : float,
      kalman_filter (init r q) m = Ok (set_x_cov (init r q) m q, m)) /\
  (forall (self : DataStream Exact.xreal) (q m : R),
      self_x self = None -> self_Q self = Some q -> self_C self <> 0%Z ->
      kalman_filter self (Some m)
      = Ok (set_x_cov self (Some (m / IZR (self_C self))%R)
                      (Some (q / (IZR (self_C self)) ^ 2)%R),
            Some (m / IZR (self_C self))%R)).
Proof.
  split.
  - exact first_call_binary64.
  - intros self q m Hx HQ HC. unfold kalman_filter. rewrite Hx, HQ.
    cbn [isnan Exact.xreal_PyFloat Exact.isnan of_int truediv mul].
    unfold Exact.truediv.
    assert (HC' : IZR (self_C self) <> 0%R) by (apply not_0_IZR; exact HC).
    destruct (Req_dec_T (IZR (self_C self)) 0) as [H0|_]; [contradiction|].
    cbn [bind Exact.lift2].
    replace (1 / IZR (self_C self) * m)%R with (m / IZR (self_C self))%R
      by (field; exact HC').
    replace (1 / IZR (self_C self) * q * (1 / IZR (self_C self)))%R
      with (q / IZR (self_C self) ^ 2)%R by (field; exact HC').
    reflexivity.
Qed.

Lemma first_call_returns_measurement_witness :
  kalman_filter (mkDataStream 1 0 2 (Some 1%R) (Some 8%R) None None) (Some 6%R)
  = Ok (mkDataStream 1 0 2 (Some 1%R) (Some 8%R)
                     (Some (6 / IZR 2)%R) (Some (8 / (IZR 2) ^ 2)%R),
        Some (6 / IZR 2)%R).
Proof.
  apply (proj2 first_call_returns_measurement
               (mkDataStream 1 0 2 (Some 1%R) (Some 8%R) None None) 8%R 6%R);
    [reflexivity | reflexivity | simpl; lia].
Defined.

(** ** A constant series in binary64 *)

Section NextCall.
Context {T : Type} `{PyFloat T}.

(** A call after the first stores [estimate_next] for the gain
    [gain_next]. *)
Lemma kalman_filter_next (self self' : DataStream T) (m y : T) :
  isnan (self_x self) = false ->
  kalman_filter self m = Ok (self', y) ->
  exists k, gain_next self = Ok k /\ y = estimate_next self k m.
Proof.
  unfold kalman_filter, gain_next, estimate_next. intros ->.
  destruct (truediv (of_int 1) _) as [d|e]; simpl;
    intros Hk; [injection Hk as _ <- | discriminate].
  eexists. split; reflexivity.
Qed.

Lemma gain_next_config (s1 s2 : DataStream T) :
  same_config s1 s2 -> self_cov s1 = self_cov s2 ->
  gain_next s1 = gain_next s2.
Proof.
  intros (HA & HB & HC & HR & HQ) Hcov. unfold gain_next.
  rewrite HA, HC, HR, HQ, Hcov. reflexivity.
Qed.

End NextCall.

Lemma is_finite_sf (x : float) : is_finite x = true -> sf_finite (Prim2SF x) = true.
Proof.
  unfold is_finite, is_nan, is_infinity.
  rewrite !eqb_spec, abs_spec.
  change (Prim2SF infinity) with (S754_infinity false).
  destruct (Prim2SF x) as [s|s| |s m e]; simpl; trivial.
  - destruct s; discriminate.
Qed.

(** x + (+0) *)
Lemma add_pzero (x : float) :
  sf_finite (Prim2SF x) = true ->
  (exists s m e, Prim2SF x = S754_finite s m e /\ (x + 0)%float = x) \/
  (exists s, Prim2SF x = S754_zero s /\ (x + 0)%float = 0%float).
Proof.
  intros Hf. destruct (Prim2SF x) as [s|s| |s m e] eqn:Hx; try discriminate.
  - right. exists s. split; trivial. apply Prim2SF_inj. rewrite add_spec, Hx.
    destruct s; reflexivity.
  - left. exists s, m, e. split; trivial. apply Prim2SF_inj. rewrite add_spec, Hx.
    reflexivity.
Qed.

Lemma sub_self (x : float) (s : bool) (m : positive) (e : Z) :
  Prim2SF x = S754_finite s m e -> (x - x)%float = 0%float.
Proof.
  intros Hx. apply Prim2SF_inj. rewrite sub_spec, Hx.
  change (Prim2SF 0) with (S754_zero false).
  unfold SF64sub, SFsub.
  set (a := cond_Zopp s _).
  replace (IntDef.Z.sub a a) with 0%Z; [reflexivity|].
  symmetry. apply Z.sub_diag.
Qed.

Lemma mul_zero_r (k z : float) (sz : bool) :
  sf_finite (Prim2SF k) = true -> Prim2SF z = S754_zero sz ->
  exists s, Prim2SF (k * z)%float = S754_zero s.
Proof.
  intros Hk Hz. rewrite mul_spec, Hz.
  destruct (Prim2SF k) as [s|s| |s m e]; try discriminate; simpl; eauto.
Qed.

Lemma add_zero_finite (x z : float) (s sz : bool) (m : positive) (e : Z) :
  Prim2SF x = S754_finite s m e -> Prim2SF z = S754_zero sz ->
  (x + z)%float = x.
Proof.
  intros Hx Hz. apply Prim2SF_inj. rewrite add_spec, Hx, Hz. reflexivity.
Qed.

Lemma pzero_add_zero (z : float) (sz : bool) :
  Prim2SF z = S754_zero sz -> (0 + z)%float = 0%float.
Proof.
  intros Hz. apply Prim2SF_inj. rewrite add_spec, Hz.
  change (Prim2SF 0) with (S754_zero false). destruct sz; reflexivity.
Qed.

Lemma zero_sub_pzero (x : float) (s : bool) :
  Prim2SF x = S754_zero s -> exists s', Prim2SF (x - 0)%float = S754_zero s'.
Proof.
  intros Hx. rewrite sub_spec, Hx.
  change (Prim2SF 0) with (S754_zero false). destruct s; simpl; eauto.
Qed.

(** One correction on a constant series: the estimate stays at the
    measurement (at +0 when the measurement is a zero). *)
Lemma constant_correction (x m k : float) :
  sf_finite (Prim2SF k) = true ->
  sf_finite (Prim2SF m) = true ->
  x = m \/ ((exists s, Prim2SF m = S754_zero s) /\ x = 0%float) ->
  let y := ((x + 0) + k * (m - (x + 0)))%float in
  y = m \/ ((exists s, Prim2SF m = S754_zero s) /\ y = 0%float).
Proof.
  intros Hk Hm Hx y. subst y.
  destruct (add_pzero m Hm) as [(s & mm & e & HPm & Hm0) | (s & HPm & Hm0)].
  - left. destruct Hx as [-> | [[s' Hz] _]]; [|congruence].
    rewrite Hm0. rewrite (sub_self m s mm e HPm).
    destruct (mul_zero_r k 0 false Hk eq_refl) as [sk Hkz].
    exact (add_zero_finite m _ s sk mm e HPm Hkz).
  - right. split; [eauto|].
    assert (Hx0 : (x + 0)%float = 0%float).
    { destruct Hx as [-> | [_ ->]]; [exact Hm0 | reflexivity]. }
    rewrite Hx0.
    destruct (zero_sub_pzero m s HPm) as [sd Hd].
    destruct (mul_zero_r k _ sd Hk Hd) as [sk Hkz].
    exact (pzero_add_zero _ sk Hkz).
Qed.

Lemma sf_eqb_refl (a : spec_float) :
  sf_finite a = true -> SFeqb a a = true.
Proof.
  destruct a as [s|s| |s m e]; try discriminate; intros _; [reflexivity|].
  assert (He : IntDef.Z.compare e e = Eq) by apply Z.compare_refl.
  assert (Hm : PosDef.Pos.compare_cont Eq m m = Eq) by apply Pos.compare_cont_refl.
  unfold SFeqb, SFcompare. destruct s; rewrite He, Hm; reflexivity.
Qed.

Lemma constant_at_eqb (x m : float) :
  sf_finite (Prim2SF m) = true -> constant_at x m -> (x =? m)%float = true.
Proof.
  intros Hm [-> | [[s Hz] ->]]; rewrite eqb_spec.
  - apply sf_eqb_refl. exact Hm.
  - rewrite Hz. reflexivity.
Qed.

Lemma constant_at_not_nan (x m : float) :
  sf_finite (Prim2SF m) = true -> constant_at x m -> is_nan x = false.
Proof.
  intros Hm [-> | [_ ->]]; [|reflexivity].
  unfold is_nan. rewrite eqb_spec, sf_eqb_refl by exact Hm. reflexivity.
Qed.

Lemma cov_seq_limit : cov_seq shipped 129 = Ok cov_limit.
Proof. vm_compute. reflexivity. Qed.

Lemma gain_ok_prefix : forallb gain_ok (seq 0 130) = true.
Proof. vm_compute. reflexivity. Qed.

Lemma gain_ok_all (n : nat) : gain_ok n = true.
Proof.
  destruct (Nat.le_gt_cases 129 n) as [Hn|Hn].
  - unfold gain_ok. rewrite (cov_seq_stable n Hn).
    change (gain_ok 129 = true).
    apply (proj1 (forallb_forall _ _) gain_ok_prefix). apply in_seq. lia.
  - apply (proj1 (forallb_forall _ _) gain_ok_prefix). apply in_seq. lia.
Qed.

Lemma cov_step_ok_prefix : forallb cov_step_ok (seq 0 130) = true.
Proof. vm_compute. reflexivity. Qed.

Lemma cov_step_ok_all (n : nat) : cov_step_ok n = true.
Proof.
  destruct (Nat.le_gt_cases 129 n) as [Hn|Hn].
  - unfold cov_step_ok.
    rewrite (cov_seq_stable n Hn), (cov_seq_stable (S n)) by lia.
    rewrite cov_seq_limit. reflexivity.
  - apply (proj1 (forallb_forall _ _) cov_step_ok_prefix). apply in_seq. lia.
Qed.

Section OneMoreCall.
Context {T : Type} `{PyFloat T}.

Lemma cov_seq_step (self0 self self1 : DataStream T) (n : nat) (m y : T) :
  same_config self0 self -> isnan (self_x self) = false ->
  cov_seq self0 n = Ok (self_cov self) ->
  kalman_filter self m = Ok (self1, y) ->
  cov_seq self0 (S n) = Ok (self_cov self1).
Proof.
  intros Hcfg Hx Hn Hk.
  destruct (kalman_filter_Ok _ _ _ _ Hk) as (_ & _ & Hcov).
  unfold cov_written in Hcov. rewrite Hx in Hcov.
  cbn [cov_seq]. rewrite Hn. simpl. rewrite <- Hcov.
  apply cov_next_config; [exact Hcfg | reflexivity].
Qed.

End OneMoreCall.

(** One more call on the shipped configuration with the same finite
    measurement keeps the estimate at the measurement. *)
Lemma shipped_constant_step (s s' : DataStream float) (m y : float) (n : nat) :
  same_config shipped s ->
  cov_seq shipped n = Ok (self_cov s) ->
  sf_finite (Prim2SF m) = true ->
  constant_at (self_x s) m ->
  kalman_filter s m = Ok (s', y) ->
  constant_at y m.
Proof.
  intros Hcfg Hn Hm Hx Hk.
  assert (Hnan : isnan (self_x s) = false)
    by (exact (constant_at_not_nan _ _ Hm Hx)).
  destruct (kalman_filter_next _ _ _ _ Hnan Hk) as (k & Hg & ->).
  assert (Hkf : sf_finite (Prim2SF k) = true).
  { assert (Hok := gain_ok_all n). unfold gain_ok in Hok. rewrite Hn in Hok.
    rewrite (gain_next_config (set_x_cov shipped PrimFloat.nan (self_cov s)) s)
      in Hok; [rewrite Hg in Hok; exact Hok | | reflexivity].
    eapply same_config_trans; [apply same_config_sym, same_config_set | exact Hcfg]. }
  unfold estimate_next. destruct Hcfg as (HA & HB & HC & _).
  rewrite <- HA, <- HB, <- HC.
  change (of_int (self_A shipped)) with 1%float.
  change (of_int (self_C shipped)) with 1%float.
  change (of_int (self_B shipped * 0)) with 0%float.
  cbn [add sub mul Binary64.float_PyFloat].
  rewrite !b64_mul_1_l. apply constant_correction; assumption.
Qed.

Lemma shipped_constant_run (m : float) (k : nat) :
  sf_finite (Prim2SF m) = true ->
  forall (s : DataStream float) (n : nat) (ss : list (DataStream float)),
    same_config shipped s ->
    cov_seq shipped n = Ok (self_cov s) ->
    constant_at (self_x s) m ->
    filter_states s (repeat m k) = Ok ss ->
    Forall (fun s' => constant_at (self_x s') m) ss.
Proof.
  intros Hm. induction k as [|k IH]; intros s n ss Hcfg Hn Hx Hrun.
  - injection Hrun as <-. constructor.
  - cbn [repeat filter_states] in Hrun.
    inv_bind Hrun. destruct v as [s1 y]. inv_bind Hrun. injection Hrun as <-.
    assert (Hnan : isnan (self_x s) = false)
      by (exact (constant_at_not_nan _ _ Hm Hx)).
    destruct (kalman_filter_Ok _ _ _ _ Hc) as (Hy & Hcfg1 & _).
    assert (Hx1 : constant_at (self_x s1) m).
    { rewrite Hy. exact (shipped_constant_step s s1 m y n Hcfg Hn Hm Hx Hc). }
    constructor; [exact Hx1|].
    apply (IH s1 (S n) v); trivial.
    + eapply same_config_trans; eassumption.
    + exact (cov_seq_step shipped s s1 n m y Hcfg Hnan Hn Hc).
Qed.

(** ** A constant series *)

(** In exact arithmetic. *)
Lemma constant_series_exact (r q m : R) :
  (0 < r)%R -> (0 < q)%R ->
  (forall n, exists ss,
      filter_states (init (Some r) (Some q)) (repeat (Some m) n) = Ok ss /\
      length ss = n /\
      forall i s, nth_error ss i = Some s ->
                  self_x s = Some m /\ self_cov s = Some (cov_real r q i)) /\
  (forall n, (cov_real r q (S n) < cov_real r q n)%R) /\
  (0 < cov_star r q)%R /\
  cov_star r q
  = ((1 * 1 * cov_star r q + r) * q / (1 * 1 * cov_star r q + r + q))%R /\
  Un_cv (cov_real r q) (cov_star r q).
Proof.
  intros Hr Hq. split; [|split; [|split; [|split]]].
  - intros [|k].
    + exists []. split; [reflexivity|]. split; [reflexivity|].
      intros i s Hi. destruct i; discriminate.
    + cbn [repeat]. rewrite <- map_repeat.
      change (Some m :: map Some (repeat m k))
        with (map (@Some R) (m :: repeat m k)).
      rewrite (exact_fresh_states r q Hr Hq).
      eexists. split; [reflexivity|]. split.
      * unfold exact_objs. cbn [map length].
        rewrite length_map, exact_trace_length, repeat_length. reflexivity.
      * intros i s Hi. destruct i as [|j]; simpl in Hi.
        -- injection Hi as <-. split; reflexivity.
        -- apply nth_error_exact_objs in Hi. destruct Hi as (e & c & Hi & ->).
           rewrite (exact_trace_constant r q m q k j e c Hi).
           rewrite (exact_trace_cov r q (repeat m k) m 0 j e c Hi).
           split; reflexivity.
  - apply cov_real_decreasing; assumption.
  - apply cov_star_pos; assumption.
  - assert (Hfix := cov_star_fixed r q Hr Hq). unfold cov_update in Hfix.
    rewrite <- Hfix at 1. f_equal; ring.
  - apply cov_real_converges; assumption.
Qed.


(** In binary64, with the shipped R and Q. *)
Lemma constant_series_binary64 (m : float) (n : nat) :
  is_finite m = true ->
  exists ss,
    filter_states shipped (repeat m n) = Ok ss /\
    length ss = n /\
    forall i s, nth_error ss i = Some s ->
                (self_x s =? m)%float = true /\
                cov_seq shipped i = Ok (self_cov s).
Proof.
  intros Hfin. assert (Hm := is_finite_sf m Hfin).
  destruct (shipped_states shipped (repeat m n) (same_config_refl _)
                           (or_introl eq_refl)) as (ss & Hss & _).
  exists ss. split; [exact Hss|]. split.
  - rewrite (filter_states_length _ _ _ Hss). apply repeat_length.
  - assert (Hall : Forall (fun s => constant_at (self_x s) m) ss).
    { destruct n as [|k]; cbn [repeat filter_states] in Hss.
      - injection Hss as <-. constructor.
      - rewrite (first_call_binary64 FILTER_R FILTER_Q m : kalman_filter shipped m = _)
          in Hss.
        cbn [bind] in Hss. inv_bind Hss. injection Hss as <-.
        constructor; [left; reflexivity|].
        apply (shipped_constant_run m k Hm (set_x_cov shipped m FILTER_Q)
                                    0%nat v); trivial.
        + apply same_config_set.
        + left. reflexivity. }
    intros i s Hi. split.
    + apply constant_at_eqb; [exact Hm|].
      exact (proj1 (Forall_forall _ _) Hall s (nth_error_In _ _ Hi)).
    + assert (Hfresh : isnan (self_x shipped) = true) by reflexivity.
      apply (fresh_states_cov_seq shipped (repeat m n) ss Hfresh Hss); trivial.
      apply Forall_impl with (2 := Hall). intros s' Hs'.
      exact (constant_at_not_nan _ _ Hm Hs').
Qed.

(** C7 (as amended): in exact arithmetic, for all positive R and Q, a
    constant series keeps the estimate at the measurement, the covariance
    after each call is [cov_real], it decreases strictly and converges to
    [cov_star], the positive solution of
    [cov = ((A^2 cov + R) Q) / (A^2 cov + R + Q)] with [A = 1].  In
    binary64 with the shipped R and Q, on a constant finite series every
    estimate equals the measurement, the covariance never increases from a
    call to the next, and from call 130 on it is [cov_limit]. *)
Theorem constant_series_converges :
  (forall r q m : R,
      (0 < r)%R -> (0 < q)%R ->
      (forall n, exists ss,
          filter_states (init (Some r) (Some q)) (repeat (Some m) n) = Ok ss /\
          length ss = n /\
          forall i s, nth_error ss i = Some s ->
                      self_x s = Some m /\ self_cov s = Some (cov_real r q i)) /\
      (forall n, (cov_real r q (S n) < cov_real r q n)%R) /\
      (0 < cov_star r q)%R /\
      cov_star r q
      = ((1 * 1 * cov_star r q + r) * q / (1 * 1 * cov_star r q + r + q))%R /\
      Un_cv (cov_real r q) (cov_star r q)) /\
  (forall (m : float) (n : nat),
      is_finite m = true ->
      exists ss,
        filter_states shipped (repeat m n) = Ok ss /\
        length ss = n /\
        forall i s, nth_error ss i = Some s ->
                    (self_x s =? m)%float = true /\
                    cov_seq shipped i = Ok (self_cov s)) /\
  (forall i, exists a b,
      cov_seq shipped i = Ok a /\ cov_seq shipped (S i) = Ok b /\
      (b <=? a)%float = true) /\
  (forall i, (129 <= i)%nat -> cov_seq shipped i = Ok cov_limit).
Proof.
  split; [exact constant_series_exact|].
  split; [exact constant_series_binary64|]. split.
  - intros i. assert (Hok := cov_step_ok_all i). unfold cov_step_ok in Hok.
    destruct (cov_seq shipped i) as [a|]; [|discriminate].
    destruct (cov_seq shipped (S i)) as [b|]; [|discriminate].
    exists a, b. repeat split. exact Hok.
  - intros i Hi. rewrite (cov_seq_stable i Hi). exact cov_seq_limit.
Qed.

Lemma constant_series_converges_witness :
  (forall n, (cov_real 2 1 (S n) < cov_real 2 1 n)%R) /\
  Un_cv (cov_real 2 1) (cov_star 2 1) /\
  cov_seq shipped 129 = Ok cov_limit.
Proof.
  destruct constant_series_converges as (Hexact & _ & _ & Hlim).
  destruct (Hexact 2%R 1%R 7%R ltac:(lra) ltac:(lra))
    as (_ & Hdec & _ & _ & Hcv).
  split; [exact Hdec|]. split; [exact Hcv|].
  apply Hlim. apply le_n.
Defined.

(** * More of the program *)

(** ** Runs of the filter *)

(** A run never changes the configuration of the filter, returns one value
    per measurement, and leaves the last returned value as the stored
    estimate. *)
Theorem filter_run_keeps_config {T : Type} `{PyFloat T}
        (self self' : DataStream T) (ms ys : list T) :
  filter_run self ms = Ok (self', ys) ->
  same_config self self' /\ length ys = length ms /\
  (ms <> [] -> self_x self' = last ys nan).
Proof.
  revert self self' ys. induction ms as [|m ms IH]; intros self self' ys Hr.
  - injection Hr as <- <-. repeat split. intros Hne. contradiction.
  - cbn [filter_run] in Hr. inv_bind Hr. destruct v as [s1 y].
    inv_bind Hr. destruct v as [s2 ys']. injection Hr as <- <-.
    destruct (kalman_filter_Ok _ _ _ _ Hc) as (Hx & Hcfg & _).
    destruct (IH _ _ _ Hc0) as (Hcfg' & Hlen & Hlast).
    split; [eapply same_config_trans; eassumption|].
    split; [simpl; rewrite Hlen; reflexivity|].
    intros _. destruct ms as [|m' ms].
    + simpl in Hc0. injection Hc0 as <- <-. exact Hx.
    + rewrite Hlast by discriminate.
      destruct ys' as [|y' ys']; [simpl in Hlen; discriminate | reflexivity].
Qed.

Lemma filter_run_keeps_config_witness :
  exists self' ys,
    filter_run shipped [1; 2]%float = Ok (self', ys) /\
    same_config shipped self' /\ length ys = 2%nat /\
    ([1; 2]%float <> [] -> self_x self' = last ys PrimFloat.nan).
Proof.
  assert (Hrun : { out | filter_run shipped [1; 2]%float = Ok out }).
  { eexists. vm_compute. reflexivity. }
  destruct Hrun as [[self' ys] Hrun]. exists self', ys.
  split; [exact Hrun|].
  exact (filter_run_keeps_config shipped self' [1; 2]%float ys Hrun).
Defined.

(** ** Two loads on one object *)

(** Loading the lines of two files one after the other on the same object
    is loading their concatenation: the second load starts from the
    estimate and the covariance the first one left, not from a fresh
    filter. *)
Theorem load_lines_app (self : DataStream float) (l1 l2 : list raw) :
  load_lines self (l1 ++ l2)
  = ('(s1, r1) <- load_lines self l1 ;;
     '(s2, r2) <- load_lines s1 l2 ;;
     Ok (s2, r1 ++ r2)).
Proof.
  revert self. induction l1 as [|l l1 IH]; intros self.
  - cbn [app load_lines bind]. destruct (load_lines self l2) as [[s2 r2]|e];
      reflexivity.
  - cbn [app load_lines].
    destruct (kalman_filter self (mag l)) as [[s fm]|e]; [|reflexivity].
    cbn [bind].
    destruct (Calendar.jd_to_datetime (ts l)) as [d|e]; [|reflexivity].
    cbn [bind].
    destruct (Calendar.jd_to_datetime (ts l - TIME_CRT)%float) as [dc|e];
      [|reflexivity].
    cbn [bind]. rewrite IH.
    destruct (load_lines s l1) as [[s1 r1]|e]; [|reflexivity].
    cbn [bind].
    destruct (load_lines s1 l2) as [[s2 r2]|e]; reflexivity.
Qed.

(** ** The records of a load *)

Lemma b64_sub_zero (x : float) : (x - 0)%float = x.
Proof.
  apply Prim2SF_inj. rewrite sub_spec.
  change (Prim2SF 0) with (S754_zero false).
  destruct (Prim2SF x) as [s|s| |s m e]; try reflexivity; destruct s; reflexivity.
Qed.

Lemma load_lines_length (self self' : DataStream float)
      (lines : list raw) (recs : list record) :
  load_lines self lines = Ok (self', recs) -> length recs = length lines.
Proof.
  revert self self' recs. induction lines as [|l lines IH];
    intros self self' recs Hl; cbn [load_lines] in Hl.
  - injection Hl as <- <-. reflexivity.
  - inv_bind Hl. destruct v as [s1 fm]. inv_bind Hl. inv_bind Hl.
    inv_bind Hl. destruct v1 as [s2 rest]. injection Hl as <- <-.
    cbn [length]. f_equal. exact (IH _ _ _ Hc2).
Qed.

Lemma load_lines_dt_cor (self self' : DataStream float)
      (lines : list raw) (recs : list record) :
  load_lines self lines = Ok (self', recs) ->
  Forall (fun r => Calendar.jd_to_datetime (r_ts r) = Ok (dt r) /\
                   dt_cor r = dt r) recs.
Proof.
  revert self self' recs. induction lines as [|l lines IH];
    intros self self' recs Hl; cbn [load_lines] in Hl.
  - injection Hl as <- <-. constructor.
  - inv_bind Hl. destruct v as [s1 fm]. inv_bind Hl. inv_bind Hl.
    inv_bind Hl. destruct v1 as [s2 rest]. injection Hl as <- <-.
    constructor; [|exact (IH _ _ _ Hc2)].
    cbn [r_ts dt dt_cor]. split; [exact Hc0|].
    unfold TIME_CRT in Hc1. rewrite b64_sub_zero in Hc1. congruence.
Qed.

(** A load that returns gives one record per line, in order, carrying the
    three numbers of the line unchanged; [dt] is the conversion of [ts],
    and with [TIME_CRT = 0.000] the corrected timestamp [dt_cor] is the
    same as [dt]. *)
Theorem load_lines_records (self self' : DataStream float)
        (lines : list raw) (recs : list record) :
  load_lines self lines = Ok (self', recs) ->
  map r_ts recs = map ts lines /\
  map r_mag recs = map mag lines /\
  map r_dif recs = map dif lines /\
  Forall (fun r => Calendar.jd_to_datetime (r_ts r) = Ok (dt r) /\
                   dt_cor r = dt r) recs.
Proof.
  intros Hl. assert (Hall := load_lines_dt_cor _ _ _ _ Hl).
  revert self self' recs Hl Hall. induction lines as [|l lines IH];
    intros self self' recs Hl Hall; cbn [load_lines] in Hl.
  - injection Hl as <- <-. repeat split. constructor.
  - inv_bind Hl. destruct v as [s1 fm]. inv_bind Hl. inv_bind Hl.
    inv_bind Hl. destruct v1 as [s2 rest]. injection Hl as <- <-.
    inversion Hall as [|? ? _ Hrest]; subst.
    destruct (IH _ _ _ Hc2 Hrest) as (Hts & Hmag & Hdif & _).
    cbn [map r_ts r_mag r_dif]. rewrite Hts, Hmag, Hdif.
    repeat split. exact Hall.
Qed.

Lemma load_lines_records_witness :
  exists self' recs,
    load_lines shipped scenario = Ok (self', recs) /\
    map r_ts recs = map ts scenario /\
    map r_mag recs = map mag scenario /\
    map r_dif recs = map dif scenario /\
    Forall (fun r => Calendar.jd_to_datetime (r_ts r) = Ok (dt r) /\
                     dt_cor r = dt r) recs.
Proof.
  assert (Hrun : { out | load_lines shipped scenario = Ok out }).
  { eexists. vm_compute. reflexivity. }
  destruct Hrun as [[self' recs] Hrun]. exists self', recs.
  split; [exact Hrun|].
  exact (load_lines_records shipped self' scenario recs Hrun).
Defined.

(** ** The lines of the file *)

Section TextLoaderFacts.
Variable py_float : String.string -> result float.

Lemma load_text_lines_raws (self : DataStream float)
      (lines : list String.string)
      (out : DataStream float * list record) :
  load_text_lines py_float self lines = Ok out ->
  exists raws, parse_lines py_float lines = Ok raws /\
               load_lines self raws = Ok out.
Proof.
  revert self out. induction lines as [|line lines IH]; intros self out;
    cbn [load_text_lines parse_lines].
  - intros Hl. exists []. split; [reflexivity | exact Hl].
  - destruct (contains "JD"%string line); [apply IH|].
    destruct (parse_line py_float line) as [temp|e]; cbn [bind];
      [|discriminate].
    intros Hl. inv_bind Hl. destruct v as [s1 fm]. inv_bind Hl.
    inv_bind Hl. inv_bind Hl. destruct v1 as [s2 rest].
    injection Hl as <-.
    apply IH in Hc2. destruct Hc2 as (raws & Hp & Hr).
    exists (temp :: raws). rewrite Hp. split; [reflexivity|].
    cbn [load_lines]. rewrite Hc, Hc0, Hc1. cbn [bind]. rewrite Hr.
    reflexivity.
Qed.

Lemma load_lines_text (self : DataStream float)
      (lines : list String.string) (raws : list raw)
      (out : DataStream float * list record) :
  parse_lines py_float lines = Ok raws -> load_lines self raws = Ok out ->
  load_text_lines py_float self lines = Ok out.
Proof.
  revert self raws out. induction lines as [|line lines IH];
    intros self raws out; cbn [load_text_lines parse_lines].
  - intros Hp Hl. injection Hp as <-. exact Hl.
  - destruct (contains "JD"%string line); [apply IH|].
    destruct (parse_line py_float line) as [temp|e]; cbn [bind];
      [|discriminate].
    intros Hp Hl. inv_bind Hp. injection Hp as <-.
    cbn [load_lines] in Hl. inv_bind Hl. destruct v0 as [s1 fm].
    inv_bind Hl. inv_bind Hl. inv_bind Hl. destruct v2 as [s2 rest].
    injection Hl as <-.
    rewrite Hc0, Hc1, Hc2. cbn [bind].
    rewrite (IH _ _ _ Hc Hc3). reflexivity.
Qed.

(** Reading the file is parsing its data lines and loading the parsed
    lines: the text loader returns exactly when both do, with the same
    result. *)
Theorem load_text_lines_parse (self : DataStream float)
        (lines : list String.string)
        (out : DataStream float * list record) :
  load_text_lines py_float self lines = Ok out <->
  exists raws, parse_lines py_float lines = Ok raws /\
               load_lines self raws = Ok out.
Proof.
  split.
  - apply load_text_lines_raws.
  - intros (raws & Hp & Hl). exact (load_lines_text _ _ _ _ Hp Hl).
Qed.

Lemma parse_line_tokens (line : String.string) (temp : raw) :
  parse_line py_float line = Ok temp -> (3 <= length (split line))%nat.
Proof.
  unfold parse_line, getitem. intros Hp.
  destruct (split line) as [|t0 [|t1 [|t2 l]]]; simpl in *.
  - discriminate.
  - destruct (py_float _); discriminate.
  - destruct (py_float _); [|discriminate]. simpl in Hp.
    destruct (py_float _); discriminate.
  - lia.
Qed.

Lemma parse_lines_shape (lines : list String.string) (raws : list raw) :
  parse_lines py_float lines = Ok raws ->
  length raws = length (data_lines lines) /\
  Forall (fun line => (3 <= length (split line))%nat) (data_lines lines).
Proof.
  revert raws. induction lines as [|line lines IH]; intros raws Hp;
    cbn [parse_lines] in Hp; unfold data_lines; cbn [filter].
  - injection Hp as <-. split; [reflexivity | constructor].
  - destruct (contains "JD"%string line); cbn [negb].
    + apply IH. exact Hp.
    + inv_bind Hp. inv_bind Hp. injection Hp as <-.
      destruct (IH _ Hc0) as (Hlen & Hall).
      split; [simpl; f_equal; exact Hlen|].
      constructor; [eapply parse_line_tokens; eauto | exact Hall].
Qed.

(** When [load_data] returns, the file has at least one line without
    ["JD"], each such line has at least three tokens (so a blank line makes
    the load raise), and there is one record per such line. *)
Theorem load_data_text_shape (self self' : DataStream float)
        (lines : list String.string) (recs : list record) :
  load_data_text py_float self lines = Ok (self', recs) ->
  length recs = length (data_lines lines) /\
  (1 <= length recs)%nat /\
  Forall (fun line => (3 <= length (split line))%nat) (data_lines lines).
Proof.
  unfold load_data_text. intros Hl. inv_bind Hl. destruct v as [s1 parsed].
  destruct parsed as [|p parsed]; [discriminate|]. injection Hl as <- <-.
  apply load_text_lines_raws in Hc. destruct Hc as (raws & Hp & Hr).
  destruct (parse_lines_shape _ _ Hp) as (Hlen & Hall).
  apply load_lines_length in Hr.
  split; [congruence|]. split; [simpl; lia | exact Hall].
Qed.

(** A file without a data line (empty, or headers only) makes [load_data]
    raise [IndexError]. *)
Theorem load_data_text_no_data (self : DataStream float)
        (lines : list String.string) :
  data_lines lines = [] ->
  load_data_text py_float self lines = Raise IndexError.
Proof.
  intros Hd. unfold load_data_text.
  assert (Hl : load_text_lines py_float self lines = Ok (self, [])).
  { induction lines as [|line lines IH]; [reflexivity|].
    unfold data_lines in Hd. cbn [filter] in Hd. cbn [load_text_lines].
    destruct (contains "JD"%string line); cbn [negb] in Hd; [|discriminate].
    apply IH. exact Hd. }
  rewrite Hl. reflexivity.
Qed.

(** A data line is read through the first 14 characters of its first token
    and its second and third tokens only: what follows the 14th character
    of the timestamp, and any further token, is ignored. *)
Theorem parse_line_key (line1 line2 : String.string) :
  line_key line1 = line_key line2 ->
  parse_line py_float line1 = parse_line py_float line2.
Proof.
  unfold line_key, parse_line, getitem.
  destruct (split line1) as [|a0 [|a1 [|a2 la]]];
    destruct (split line2) as [|b0 [|b1 [|b2 lb]]];
    cbn [firstn nth_error bind]; intros Hk; try discriminate;
    try reflexivity; injection Hk; intros; subst;
    repeat match goal with
           | H : String.substring 0 14 _ = String.substring 0 14 _ |- _ =>
               rewrite H; clear H
           end;
    reflexivity.
Qed.

(** [get_data] loads once: after a call that returned, every later call
    returns the same non-empty list and leaves the object as it is,
    whatever the file holds by then. *)
Theorem get_data_cached (app app1 : App) (file : list String.string)
        (data : list record) :
  get_data py_float app file = Ok (app1, data) ->
  data <> [] /\ data_stream app1 = data /\
  forall file2, get_data py_float app1 file2 = Ok (app1, data).
Proof.
  unfold get_data. intros Hg.
  assert (Hd : data <> [] /\ data_stream app1 = data).
  { destruct (data_stream app) as [|r rs] eqn:Hds.
    - inv_bind Hg. injection Hg as <- <-.
      unfold app_load_data in Hc. inv_bind Hc. destruct v0 as [s1 parsed].
      injection Hc as <-.
      unfold load_data_text in Hc0. inv_bind Hc0. destruct v as [s2 parsed2].
      destruct parsed2 as [|p ps]; [discriminate|].
      injection Hc0 as <- <-.
      split; [discriminate | reflexivity].
    - injection Hg as <- <-. rewrite Hds. split; [discriminate | reflexivity]. }
  destruct Hd as [Hne Hds]. repeat split; trivial.
  intros file2. rewrite Hds.
  destruct data as [|r rs]; [contradiction | reflexivity].
Qed.

End TextLoaderFacts.

Lemma load_text_lines_parse_witness :
  exists out raws,
    load_text_lines float_of_digits shipped sample_file = Ok out /\
    parse_lines float_of_digits sample_file = Ok raws /\
    load_lines shipped raws = Ok out.
Proof.
  assert (Hrun : { out | load_text_lines float_of_digits shipped sample_file
                         = Ok out }).
  { eexists. vm_compute. reflexivity. }
  destruct Hrun as [out Hrun].
  destruct (proj1 (load_text_lines_parse float_of_digits shipped sample_file out)
                  Hrun) as (raws & Hp & Hl).
  exists out, raws. repeat split; assumption.
Defined.

Lemma load_data_text_shape_witness :
  exists self' recs,
    load_data_text float_of_digits shipped sample_file = Ok (self', recs) /\
    length recs = length (data_lines sample_file) /\
    (1 <= length recs)%nat /\
    Forall (fun line => (3 <= length (split line))%nat) (data_lines sample_file).
Proof.
  assert (Hrun : { out | load_data_text float_of_digits shipped sample_file
                         = Ok out }).
  { eexists. vm_compute. reflexivity. }
  destruct Hrun as [[self' recs] Hrun]. exists self', recs.
  split; [exact Hrun|].
  exact (load_data_text_shape float_of_digits shipped self' sample_file recs Hrun).
Defined.

Lemma load_data_text_no_data_witness :
  load_data_text float_of_digits shipped ["HJD mag err"; "# JD"]%string
  = Raise IndexError.
Proof.
  apply (load_data_text_no_data float_of_digits shipped). reflexivity.
Defined.

Lemma parse_line_key_witness :
  parse_line float_of_digits "2458126.2224312345 -0.09398 0.0029 note"%string
  = parse_line float_of_digits "2458126.222431 -0.09398 0.0029"%string.
Proof.
  apply (parse_line_key float_of_digits). vm_compute. reflexivity.
Defined.

Lemma get_data_cached_witness :
  exists app1 data,
    get_data float_of_digits new_app sample_file = Ok (app1, data) /\
    data <> [] /\ data_stream app1 = data /\
    forall file2, get_data float_of_digits app1 file2 = Ok (app1, data).
Proof.
  assert (Hrun : { out | get_data float_of_digits new_app sample_file = Ok out }).
  { eexists. vm_compute. reflexivity. }
  destruct Hrun as [[app1 data] Hrun]. exists app1, data.
  split; [exact Hrun|].
  exact (get_data_cached float_of_digits new_app app1 sample_file data Hrun).
Defined.

(** ** Plotting *)

Lemma record_getitem_valid (item : record) (key : String.string) :
  In key record_keys <-> exists v, record_getitem item key = Plotted v.
Proof.
  unfold record_getitem, record_keys. split.
  - intros Hk. simpl in Hk.
    repeat (destruct Hk as [<- | Hk]; [eexists; reflexivity|]).
    destruct Hk.
  - intros [v Hv].
    repeat match type of Hv with
           | (if String.eqb key ?k then _ else _) = _ =>
               destruct (String.eqb_spec key k) as [->|_];
               [simpl; tauto|]
           end.
    discriminate.
Qed.

Lemma scatter_columns_valid (data : list record)
      (time_stamp data_tag : String.string) :
  In time_stamp record_keys -> In data_tag record_keys ->
  exists xs ys, scatter_columns data time_stamp data_tag = Plotted (xs, ys).
Proof.
  intros Hx Hy. induction data as [|item data IH]; cbn [scatter_columns].
  - exists [], []. reflexivity.
  - destruct (proj1 (record_getitem_valid item _) Hx) as [vx ->].
    destruct (proj1 (record_getitem_valid item _) Hy) as [vy ->].
    destruct IH as (xs & ys & ->). eexists _, _. reflexivity.
Qed.

Lemma scatter_columns_length (data : list record)
      (time_stamp data_tag : String.string) (xs ys : list value) :
  scatter_columns data time_stamp data_tag = Plotted (xs, ys) ->
  length xs = length data /\ length ys = length data.
Proof.
  revert xs ys. induction data as [|item data IH]; intros xs ys Hs;
    cbn [scatter_columns] in Hs.
  - injection Hs as <- <-. split; reflexivity.
  - destruct (record_getitem item time_stamp) as [vx|]; [|discriminate].
    destruct (record_getitem item data_tag) as [vy|]; [|discriminate].
    destruct (scatter_columns data time_stamp data_tag) as [[xs' ys']|];
      [|discriminate].
    injection Hs as <- <-. destruct (IH _ _ eq_refl) as [Hx Hy].
    simpl. split; congruence.
Qed.

(** When [plot_graph] returns, the figure has one diagram per pair of
    keys, in order, and each diagram has one point per record. *)
Theorem plot_graph_shape (data : list record)
        (dataset : list (String.string * String.string))
        (diagrams : list Scatter) :
  plot_graph data dataset = Plotted diagrams ->
  length diagrams = length dataset /\
  Forall (fun d => length (scatter_x d) = length data /\
                   length (scatter_y d) = length data) diagrams.
Proof.
  revert diagrams. induction dataset as [|[kx ky] dataset IH];
    intros diagrams Hp; cbn [plot_graph] in Hp.
  - injection Hp as <-. split; [reflexivity | constructor].
  - destruct (scatter_columns data kx ky) as [[xs ys]|] eqn:Hs; [|discriminate].
    destruct (plot_graph data dataset) as [ds|]; [|discriminate].
    injection Hp as <-. destruct (IH _ eq_refl) as [Hlen Hall].
    split; [simpl; congruence|].
    constructor; [exact (scatter_columns_length _ _ _ _ _ Hs) | exact Hall].
Qed.

Lemma plot_graph_shape_witness :
  exists diagrams,
    plot_graph [] [("dt", "mag")]%string = Plotted diagrams /\
    length diagrams = 1%nat /\
    Forall (fun d => length (scatter_x d) = 0%nat /\
                     length (scatter_y d) = 0%nat) diagrams.
Proof.
  exists [mkScatter [] []]. split; [reflexivity|].
  exact (plot_graph_shape [] [("dt", "mag")]%string [mkScatter [] []] eq_refl).
Defined.

(** A key that no record has raises [KeyError] only if there is a record
    to look it up in: with no record, every list of pairs gives empty
    diagrams; with at least one record, [plot_graph] returns exactly when
    all the keys are keys of a record. *)
Theorem plot_graph_keys (data : list record)
        (dataset : list (String.string * String.string)) :
  plot_graph [] dataset = Plotted (map (fun _ => mkScatter [] []) dataset) /\
  (data <> [] ->
   ((exists diagrams, plot_graph data dataset = Plotted diagrams) <->
    Forall (fun p => In (fst p) record_keys /\ In (snd p) record_keys) dataset)).
Proof.
  split.
  - induction dataset as [|[kx ky] dataset IH]; cbn [plot_graph map];
      [reflexivity|]. cbn [scatter_columns]. rewrite IH. reflexivity.
  - intros Hne. destruct data as [|item data]; [contradiction|]. clear Hne.
    induction dataset as [|[kx ky] dataset IH]; cbn [plot_graph].
    + split; [constructor | exists []; reflexivity].
    + split.
      * intros [diagrams Hp].
        destruct (scatter_columns (item :: data) kx ky) as [[xs ys]|] eqn:Hs;
          [|discriminate].
        destruct (plot_graph (item :: data) dataset) as [ds|] eqn:Hds;
          [|discriminate].
        constructor; [|apply IH; exists ds; reflexivity].
        cbn [scatter_columns] in Hs. cbn [fst snd].
        destruct (record_getitem item kx) as [vx|] eqn:Hx; [|discriminate].
        destruct (record_getitem item ky) as [vy|] eqn:Hy; [|discriminate].
        split; apply (record_getitem_valid item); eauto.
      * intros Hall. inversion Hall as [|? ? [Hx Hy] Hrest]; subst.
        cbn [fst snd] in Hx, Hy.
        destruct (scatter_columns_valid (item :: data) kx ky Hx Hy)
          as (xs & ys & ->).
        destruct (proj2 IH Hrest) as [ds ->]. eexists. reflexivity.
Qed.

Lemma plot_graph_keys_witness :
  exists r,
    (exists diagrams, plot_graph [r] [("dt", "mag")]%string = Plotted diagrams) /\
    plot_graph [r] [("dt", "magnitude")]%string = KeyError "magnitude"%string.
Proof.
  exists (mkRecord 0 0 0 0 (mkDatetime 2000 1 1 0 0 0 0)
                   (mkDatetime 2000 1 1 0 0 0 0)).
  split; [|reflexivity].
  apply (proj2 (plot_graph_keys _ [("dt", "mag")]%string)); [discriminate|].
  constructor; [|constructor]. split; simpl; tauto.
Defined.

(** ** The program *)

Lemma scatter_columns_raw (data : list record) :
  scatter_columns data "dt"%string "mag"%string
  = Plotted (map (fun r => VDatetime (dt r)) data,
             map (fun r => VFloat (r_mag r)) data).
Proof.
  induction data as [|item data IH]; [reflexivity|].
  cbn [scatter_columns]. rewrite IH. reflexivity.
Qed.

Lemma scatter_columns_filtered (data : list record) :
  scatter_columns data "dt_cor"%string "f_mag"%string
  = Plotted (map (fun r => VDatetime (dt_cor r)) data,
             map (fun r => VFloat (f_mag r)) data).
Proof.
  induction data as [|item data IH]; [reflexivity|].
  cbn [scatter_columns]. rewrite IH. reflexivity.
Qed.

(** The first record of a load on the fresh shipped object carries its raw
    magnitude as filtered magnitude. *)
Lemma load_lines_first (self' : DataStream float) (lines : list raw)
      (r : record) (recs : list record) :
  load_lines shipped lines = Ok (self', r :: recs) -> f_mag r = r_mag r.
Proof.
  destruct lines as [|l lines]; cbn [load_lines]; [discriminate|].
  rewrite (first_call_binary64 FILTER_R FILTER_Q (mag l)
           : kalman_filter shipped (mag l) = _).
  cbn [bind]. intros Hl. inv_bind Hl. inv_bind Hl. inv_bind Hl.
  destruct v1 as [s2 rest]. injection Hl as _ <- _. reflexivity.
Qed.

(** When the program reaches the plotting service, the figure has two
    diagrams over the same timestamps (the corrected timestamps equal the
    timestamps, [TIME_CRT] being 0), one point per data line of the file
    and at least one: the raw magnitudes and the filtered magnitudes, which
    start at the same value. *)
Theorem main_figure (py_float : String.string -> result float)
        (file : list String.string) (p : plotted (list Scatter)) :
  main py_float file = Ok p ->
  exists xs mags fmags,
    p = Plotted [mkScatter xs mags; mkScatter xs fmags] /\
    length xs = length (data_lines file) /\
    length mags = length xs /\ length fmags = length xs /\
    (1 <= length xs)%nat /\
    nth_error fmags 0 = nth_error mags 0.
Proof.
  unfold main, get_data, app_load_data. cbn [new_app data_stream app_self].
  destruct (load_data_text py_float shipped file) as [[s1 parsed]|e] eqn:Hload;
    cbn [bind data_stream]; intros Hm; [|discriminate].
  injection Hm as <-.
  unfold load_data_text in Hload.
  destruct (load_text_lines py_float shipped file) as [[s2 parsed2]|e] eqn:Htext;
    cbn [bind] in Hload; [|discriminate].
  destruct parsed2 as [|r rs]; [discriminate|]. injection Hload as <- <-.
  apply load_text_lines_raws in Htext. destruct Htext as (raws & Hp & Hl).
  assert (Hlen : length (r :: rs) = length (data_lines file)).
  { rewrite (load_lines_length _ _ _ _ Hl).
    exact (proj1 (parse_lines_shape _ _ _ Hp)). }
  assert (Hpos : (1 <= length (r :: rs))%nat) by (simpl; lia).
  assert (Hall := load_lines_dt_cor _ _ _ _ Hl).
  assert (Hfirst := load_lines_first _ _ _ _ Hl).
  cbn [plot_graph]. rewrite scatter_columns_raw, scatter_columns_filtered.
  assert (Hx : map (fun r0 => VDatetime (dt_cor r0)) (r :: rs)
               = map (fun r0 => VDatetime (dt r0)) (r :: rs)).
  { apply map_ext_in. intros r0 Hr0.
    destruct (proj1 (Forall_forall _ _) Hall r0 Hr0) as [_ ->]. reflexivity. }
  rewrite Hx.
  eexists _, _, _. split; [reflexivity|].
  rewrite !length_map. repeat split; trivial.
  cbn [map nth_error]. rewrite Hfirst. reflexivity.
Qed.

Lemma main_figure_witness :
  exists p xs mags fmags,
    main float_of_digits sample_file = Ok p /\
    p = Plotted [mkScatter xs mags; mkScatter xs fmags] /\
    length xs = length (data_lines sample_file) /\
    length mags = length xs /\ length fmags = length xs /\
    (1 <= length xs)%nat /\
    nth_error fmags 0 = nth_error mags 0.
Proof.
  assert (Hrun : { p | main float_of_digits sample_file = Ok p }).
  { eexists. vm_compute. reflexivity. }
  destruct Hrun as [p Hrun].
  destruct (main_figure float_of_digits sample_file p Hrun)
    as (xs & mags & fmags & Hp).
  exists p, xs, mags, fmags. split; [exact Hrun | exact Hp].
Defined.

(** ** A NaN among the measurements *)

Lemma b64_mul_nan_r (x : float) : (x * PrimFloat.nan)%float = PrimFloat.nan.
Proof.
  apply Prim2SF_inj. rewrite mul_spec.
  change (Prim2SF PrimFloat.nan) with S754_nan.
  destruct (Prim2SF x) as [s|s| |s m e]; reflexivity.
Qed.

Lemma b64_sub_nan_l (x : float) : (PrimFloat.nan - x)%float = PrimFloat.nan.
Proof.
  apply Prim2SF_inj. rewrite sub_spec.
  change (Prim2SF PrimFloat.nan) with S754_nan. reflexivity.
Qed.

Lemma b64_add_nan_r (x : float) : (x + PrimFloat.nan)%float = PrimFloat.nan.
Proof.
  apply Prim2SF_inj. rewrite add_spec.
  change (Prim2SF PrimFloat.nan) with S754_nan.
  destruct (Prim2SF x) as [s|s| |s m e]; reflexivity.
Qed.

(** The first-call branch on any object whose estimate is a NaN, with
    [C = 1]. *)
Lemma first_call_any (s : DataStream float) (m : float) :
  is_nan (self_x s) = true -> self_C s = 1%Z ->
  kalman_filter s m = Ok (set_x_cov s m (self_Q s), m).
Proof.
  intros Hnan HC. unfold kalman_filter.
  change (isnan (self_x s)) with (is_nan (self_x s)). rewrite Hnan, HC.
  assert (H1 : truediv (of_int 1) (of_int 1) = Ok 1%float)
    by (vm_compute; reflexivity).
  rewrite H1. cbn [bind mul Binary64.float_PyFloat].
  rewrite !b64_mul_1_l, b64_mul_1_r. reflexivity.
Qed.

(** A NaN measurement does not stay in the filter: the call that receives
    it returns a NaN, and the call after it takes the first-call branch
    again, so it returns its own measurement and resets the covariance to
    Q (with [C = 1], as the constructor sets it). *)
Theorem nan_measurement_resets (s s1 : DataStream float) (y : float) :
  self_C s = 1%Z ->
  kalman_filter s PrimFloat.nan = Ok (s1, y) ->
  y = PrimFloat.nan /\
  forall m, kalman_filter s1 m = Ok (set_x_cov s1 m (self_Q s), m).
Proof.
  intros HC Hk.
  destruct (kalman_filter_Ok _ _ _ _ Hk) as (Hx & Hcfg & _).
  assert (Hy : y = PrimFloat.nan).
  { unfold kalman_filter in Hk.
    destruct (isnan (self_x s)).
    - destruct (truediv (of_int 1) (of_int (self_C s))) as [c|e];
        [|discriminate].
      cbn [bind] in Hk. injection Hk as _ <-.
      cbn [mul Binary64.float_PyFloat]. apply b64_mul_nan_r.
    - destruct (truediv (of_int 1) _) as [c|e]; [|discriminate].
      cbn [bind] in Hk. injection Hk as _ <-.
      cbn [add sub mul Binary64.float_PyFloat].
      rewrite b64_sub_nan_l, b64_mul_nan_r, b64_add_nan_r. reflexivity. }
  split; [exact Hy|]. intros m.
  destruct Hcfg as (_ & _ & HC1 & _ & HQ).
  rewrite HQ. apply first_call_any.
  - rewrite Hx, Hy. reflexivity.
  - congruence.
Qed.

Lemma nan_measurement_resets_witness :
  exists s s1 y,
    kalman_filter s PrimFloat.nan = Ok (s1, y) /\
    y = PrimFloat.nan /\
    forall m, kalman_filter s1 m = Ok (set_x_cov s1 m (self_Q s), m).
Proof.
  assert (Hrun : { out | kalman_filter (set_x_cov shipped 1%float FILTER_Q)
                                       PrimFloat.nan = Ok out }).
  { eexists. vm_compute. reflexivity. }
  destruct Hrun as [[s1 y] Hrun].
  exists (set_x_cov shipped 1%float FILTER_Q), s1, y.
  split; [exact Hrun|].
  exact (nan_measurement_resets (set_x_cov shipped 1%float FILTER_Q) s1 y
                                eq_refl Hrun).
Defined.

(** ** The covariance with the shipped constants *)

Lemma cov_range_ok_prefix : forallb cov_range_ok (seq 0 130) = true.
Proof. vm_compute. reflexivity. Qed.

Lemma cov_range_ok_all (n : nat) : cov_range_ok n = true.
Proof.
  destruct (Nat.le_gt_cases 129 n) as [Hn|Hn].
  - unfold cov_range_ok. rewrite (cov_seq_stable n Hn), cov_seq_limit.
    vm_compute. reflexivity.
  - apply (proj1 (forallb_forall _ _) cov_range_ok_prefix). apply in_seq. lia.
Qed.

(** In binary64 with the shipped R and Q, whatever the measurements (NaN
    and infinities included), after every call the covariance lies between
    0.013177446878757829 and Q = 0.1. *)
Theorem shipped_covariance_range (ms : list float) :
  exists ss,
    filter_states shipped ms = Ok ss /\
    Forall (fun s => (cov_limit <=? self_cov s)%float = true /\
                     (self_cov s <=? FILTER_Q)%float = true) ss.
Proof.
  destruct (shipped_states shipped ms (same_config_refl _)
                           (or_introl eq_refl)) as (ss & Hss & Hall).
  exists ss. split; [exact Hss|].
  apply Forall_impl with (2 := Hall). intros s [n Hn].
  assert (Hok := cov_range_ok_all n). unfold cov_range_ok in Hok.
  rewrite Hn in Hok. apply andb_true_iff in Hok. exact Hok.
Qed.

(** ** Noise parameters that are both zero *)

Lemma b64_eqb_zero (x : float) :
  (x =? 0)%float = true -> x = 0%float \/ x = (-0)%float.
Proof.
  rewrite eqb_spec. change (Prim2SF 0) with (S754_zero false).
  destruct (Prim2SF x) as [s|s| |s m e] eqn:Hx;
    try discriminate; try (destruct s; discriminate).
  intros _. destruct s; [right | left]; apply Prim2SF_inj; rewrite Hx;
    reflexivity.
Qed.

(** With R and Q both zero, the second call divides by zero: a run over
    two or more measurements raises [ZeroDivisionError], unless the first
    measurement is a NaN. *)
Theorem zero_noise_raises (r q m1 m2 : float) (ms : list float) :
  (r =? 0)%float = true -> (q =? 0)%float = true -> is_nan m1 = false ->
  filter_run (init r q) (m1 :: m2 :: ms) = Raise ZeroDivisionError.
Proof.
  intros Hr Hq Hnan. cbn [filter_run].
  rewrite first_call_binary64. cbn [bind].
  unfold kalman_filter at 1. cbn [self_x set_x_cov].
  change (isnan m1) with (is_nan m1). rewrite Hnan.
  destruct (b64_eqb_zero r Hr) as [-> | ->];
    destruct (b64_eqb_zero q Hq) as [-> | ->]; reflexivity.
Qed.

Lemma zero_noise_raises_witness :
  filter_run (init 0 0)%float [1; 2; 3]%float = Raise ZeroDivisionError.
Proof.
  apply (zero_noise_raises 0 0 1 2 [3]%float); reflexivity.
Defined.

(** ** The filter as a map on series, in exact arithmetic *)

Section Equivariance.
Variables r q : R.
Hypothesis Hr : (0 < r)%R.
Hypothesis Hq : (0 < q)%R.

Lemma exact_trace_affine (a b : R) (ms : list R) (e c : R) :
  exact_trace r q (a * e + b) c (map (fun m => a * m + b)%R ms)
  = map (fun ec => (a * fst ec + b, snd ec)%R) (exact_trace r q e c ms).
Proof.
  revert e c. induction ms as [|m ms IH]; intros e c; [reflexivity|].
  cbn [map exact_trace fst snd].
  replace (a * e + b + gain r q c * (a * m + b - (a * e + b)))%R
    with (a * (e + gain r q c * (m - e)) + b)%R by ring.
  rewrite IH. reflexivity.
Qed.

Lemma exact_trace_monotone (ms ms2 : list R) (e e2 c : R) :
  (0 < c)%R -> (e <= e2)%R -> Forall2 Rle ms ms2 ->
  Forall2 (fun p p2 => (fst p <= fst p2)%R /\ snd p = snd p2)
          (exact_trace r q e c ms) (exact_trace r q e2 c ms2).
Proof.
  intros Hc He Hms. revert e e2 c Hc He.
  induction Hms as [|m m2 ms ms2 Hm Hms IH]; intros e e2 c Hc He;
    cbn [exact_trace]; constructor.
  - cbn [fst snd]. split; [|reflexivity].
    destruct (gain_bounds r q Hr Hq c Hc) as [Hk0 Hk1].
    set (k := gain r q c) in *.
    assert (0 <= (1 - k) * (e2 - e))%R by (apply Rmult_le_pos; lra).
    assert (0 <= k * (m2 - m))%R by (apply Rmult_le_pos; lra).
    lra.
  - apply IH; [apply cov_update_pos; assumption|].
    destruct (gain_bounds r q Hr Hq c Hc) as [Hk0 Hk1].
    set (k := gain r q c) in *.
    assert (0 <= (1 - k) * (e2 - e))%R by (apply Rmult_le_pos; lra).
    assert (0 <= k * (m2 - m))%R by (apply Rmult_le_pos; lra).
    lra.
Qed.

End Equivariance.

(** In exact arithmetic the filter commutes with affine changes of the
    measurements: on the series [a m + b] it returns [a y + b] where it
    returned [y], and it leaves the same covariances.  Adding a constant to
    every magnitude shifts the filtered magnitudes by that constant. *)
Theorem filter_affine (r q a b : R) (ms : list R) :
  (0 < r)%R -> (0 < q)%R ->
  exists ss,
    filter_states (init (Some r) (Some q)) (map Some ms) = Ok ss /\
    filter_states (init (Some r) (Some q))
                  (map Some (map (fun m => a * m + b)%R ms))
    = Ok (map (fun s => set_x_cov s
                          (option_map (fun y => a * y + b)%R (self_x s))
                          (self_cov s)) ss).
Proof.
  intros Hr Hq. destruct ms as [|m0 ms].
  - exists []. split; reflexivity.
  - cbn [map]. rewrite !(exact_fresh_states r q Hr Hq : forall m l,
        filter_states _ (Some m :: map Some l) = _).
    eexists. split; [reflexivity|].
    rewrite exact_trace_affine. unfold exact_objs.
    cbn [map fst snd]. rewrite !map_map. reflexivity.
Qed.

Lemma filter_affine_witness :
  exists ss,
    filter_states (init (Some 2%R) (Some 1%R)) (map Some [3%R; 5%R]) = Ok ss /\
    filter_states (init (Some 2%R) (Some 1%R))
                  (map Some (map (fun m => 10 * m + 7)%R [3%R; 5%R]))
    = Ok (map (fun s => set_x_cov s
                          (option_map (fun y => 10 * y + 7)%R (self_x s))
                          (self_cov s)) ss).
Proof.
  apply (filter_affine 2%R 1%R 10%R 7%R [3%R; 5%R]); lra.
Defined.

(** In exact arithmetic the filter preserves the order of series: if each
    measurement of one series is at most the measurement of the other at
    the same index, so is each estimate. *)
Theorem filter_monotone (r q : R) (ms ms2 : list R) :
  (0 < r)%R -> (0 < q)%R -> Forall2 Rle ms ms2 ->
  exists s s2 ys ys2,
    filter_run (init (Some r) (Some q)) (map Some ms) = Ok (s, map Some ys) /\
    filter_run (init (Some r) (Some q)) (map Some ms2) = Ok (s2, map Some ys2) /\
    Forall2 Rle ys ys2.
Proof.
  intros Hr Hq Hms. destruct Hms as [|m m2 ms ms2 Hm Hms].
  - exists (init (Some r) (Some q)), (init (Some r) (Some q)), [], [].
    repeat split. constructor.
  - destruct (filter_states_run _ _ _ (exact_fresh_states r q Hr Hq m ms))
      as (s & Hrun).
    destruct (filter_states_run _ _ _ (exact_fresh_states r q Hr Hq m2 ms2))
      as (s2 & Hrun2).
    rewrite self_x_exact_objs in Hrun, Hrun2.
    exists s, s2, (map fst ((m, q) :: exact_trace r q m q ms)),
      (map fst ((m2, q) :: exact_trace r q m2 q ms2)).
    split; [exact Hrun|]. split; [exact Hrun2|].
    cbn [map fst]. constructor; [exact Hm|].
    assert (Ht := exact_trace_monotone r q Hr Hq ms ms2 m m2 q Hq Hm Hms).
    clear Hrun Hrun2.
    induction Ht as [|p p2 l l2 Hp Ht IH]; cbn [map]; constructor.
    + exact (proj1 Hp).
    + exact IH.
Qed.

Lemma filter_monotone_witness :
  exists s s2 ys ys2,
    filter_run (init (Some 2%R) (Some 1%R)) (map Some [3%R; 5%R])
    = Ok (s, map Some ys) /\
    filter_run (init (Some 2%R) (Some 1%R)) (map Some [4%R; 5%R])
    = Ok (s2, map Some ys2) /\
    Forall2 Rle ys ys2.
Proof.
  apply (filter_monotone 2%R 1%R [3%R; 5%R] [4%R; 5%R]); try lra.
  repeat constructor; lra.
Defined.

(** ** Day numbers and calendar dates *)

Lemma all_from_spec (f : Z -> bool) (n : nat) (lo I : Z) :
  all_from f lo n = true -> (lo <= I < lo + Z.of_nat n)%Z -> f I = true.
Proof.
  revert lo. induction n as [|n IH]; intros lo Hall HI; [lia|].
  cbn [all_from] in Hall. apply andb_true_iff in Hall. destruct Hall as [H0 Hn].
  destruct (Z.eq_dec I lo) as [->|Hne]; [exact H0|].
  apply (IH (lo + 1)%Z Hn). lia.
Qed.

Lemma gregorian_ok_2000_2029 :
  all_from gregorian_ok 2451545 (Z.to_nat 10958) = true.
Proof. vm_compute. reflexivity. Qed.

Lemma julian_ok_1500_1503 :
  all_from julian_ok 2268933 (Z.to_nat 1461) = true.
Proof. vm_compute. reflexivity. Qed.

(** For every day from 2000-01-01 to 2029-12-31 (day numbers 2451545 to
    2462502), [jd_to_datetime] at the midnight that starts the day returns
    00:00:00 of the Gregorian date whose ordinal is the day number minus
    1721425: consecutive day numbers give consecutive calendar days, leap
    days included. *)
Theorem jd_to_datetime_gregorian_days (I : Z) :
  (2451545 <= I <= 2462502)%Z ->
  exists d,
    Calendar.jd_to_datetime (midnight_jd I) = Ok d /\
    gregorian_ordinal (year d) (month d) (day d) = (I - 1721425)%Z /\
    (1 <= month d <= 12)%Z /\
    (1 <= day d <= days_in_month (year d) (month d))%Z /\
    hour d = 0%Z /\ minute d = 0%Z /\ second d = 0%Z /\ microsecond d = 0%Z.
Proof.
  intros HI.
  assert (Hok : gregorian_ok I = true).
  { apply (all_from_spec _ _ _ _ gregorian_ok_2000_2029).
    rewrite Z2Nat.id by lia. lia. }
  unfold gregorian_ok in Hok.
  destruct (Calendar.jd_to_datetime (midnight_jd I)) as [d|e]; [|discriminate].
  exists d. unfold between in Hok.
  rewrite !andb_true_iff, !Z.eqb_eq, !Z.leb_le in Hok.
  destruct Hok as ((((((Ho & Hm1 & Hm2) & Hd1 & Hd2) & Hh) & Hmi) & Hs) & Hus).
  split; [reflexivity|]. repeat split; assumption.
Qed.

Lemma jd_to_datetime_gregorian_days_witness :
  exists d,
    Calendar.jd_to_datetime (midnight_jd 2451604) = Ok d /\
    gregorian_ordinal (year d) (month d) (day d) = (2451604 - 1721425)%Z /\
    (1 <= month d <= 12)%Z /\
    (1 <= day d <= days_in_month (year d) (month d))%Z /\
    hour d = 0%Z /\ minute d = 0%Z /\ second d = 0%Z /\ microsecond d = 0%Z.
Proof.
  apply (jd_to_datetime_gregorian_days 2451604). lia.
Defined.

(** Below the threshold of line 97 the computed date is a date of the
    Julian calendar: for every day of the Julian years 1500 to 1503 (day
    numbers 2268933 to 2270393) the fields at midnight are the Julian date
    whose ordinal is the day number minus 1721423, and [jd_to_datetime]
    returns it when it is a date of the [datetime] calendar and raises
    [ValueError] when it is not (29 February 1500). *)
Theorem jd_to_datetime_julian_days (I : Z) :
  (2268933 <= I <= 2270393)%Z ->
  exists y m d,
    Calendar.jd_to_fields (midnight_jd I) = Ok (y, m, d, 0, 0, 0, 0)%Z /\
    julian_ordinal y m d = (I - 1721423)%Z /\
    (1 <= m <= 12)%Z /\ (1 <= d <= julian_days_in_month y m)%Z /\
    Calendar.jd_to_datetime (midnight_jd I)
    = if (d <=? days_in_month y m)%Z then Ok (mkDatetime y m d 0 0 0 0)
      else Raise ValueError.
Proof.
  intros HI.
  assert (Hok : julian_ok I = true).
  { apply (all_from_spec _ _ _ _ julian_ok_1500_1503).
    rewrite Z2Nat.id by lia. lia. }
  unfold julian_ok in Hok. unfold Calendar.jd_to_datetime.
  destruct (Calendar.jd_to_fields (midnight_jd I))
    as [[[[[[[y m] d] h] mi] s] us]|e]; [|discriminate].
  rewrite !andb_true_iff, !Z.eqb_eq in Hok.
  destruct Hok as (((((((Ho & Hy) & Hm) & Hd) & Hh) & Hmi) & Hs) & Hus).
  subst h mi s us. exists y, m, d. cbn [bind].
  split; [reflexivity|]. split; [exact Ho|].
  unfold datetime_new. rewrite Hy, Hm.
  unfold between in Hm, Hd. rewrite !andb_true_iff, !Z.leb_le in Hm, Hd.
  split; [exact Hm|]. split; [exact Hd|].
  assert (Hd1 : (1 <=? d)%Z = true) by (apply Z.leb_le; tauto).
  unfold between at 1. rewrite Hd1. cbn [andb between Z.leb Z.compare].
  destruct (d <=? days_in_month y m)%Z; reflexivity.
Qed.

Lemma jd_to_datetime_julian_days_witness :
  Calendar.jd_to_fields (midnight_jd 2268992) = Ok (1500, 2, 29, 0, 0, 0, 0)%Z /\
  Calendar.jd_to_datetime (midnight_jd 2268992) = Raise ValueError.
Proof.
  destruct (jd_to_datetime_julian_days 2268992 ltac:(lia))
    as (y & m & d & Hf & _ & _ & _ & Hd).
  assert (Hrun : Calendar.jd_to_fields (midnight_jd 2268992)
                 = Ok (1500, 2, 29, 0, 0, 0, 0)%Z) by (vm_compute; reflexivity).
  rewrite Hrun in Hf. injection Hf as <- <- <-.
  split; [exact Hrun | exact Hd].
Defined.
